(** * Backtesting framework: replay engine, trade simulator, risk model, analytics

    A shallow embedding of [src/examples/backtest_framework.py].

    Conventions of the embedding.
    - A [pd.Timestamp] (UTC) is the integer count of nanoseconds since the
      epoch; a [timedelta] is a count of nanoseconds.  [start_date] and
      [end_date] are taken after [pd.Timestamp(..., tz='UTC')] parsed them.
    - Prices, volatilities, R-multiples and equity are exact rationals
      ([Q]); the rounding of binary floating point is not modelled.
    - A [DataFrame] indexed by time is the list of its rows in row order;
      a row of a context frame is a finite map from column name to value.
    - [np.mean], [np.std] and [np.sqrt] are parameters of the analytics
      section: they stand for the values NumPy returns.
    - [timedelta(hours=...)] fails outside the range of a [timedelta]; the
      run with that failure is [run_backtest_raising]. *)

From Stdlib Require Import Ascii QArith Qabs Lqa Sorted.
From stdpp Require Import gmap strings list.

Local Open Scope Z_scope.

(** ** Strings: [str.upper] on ASCII letters *)

Definition upper_ascii (c : ascii) : ascii :=
  let n := nat_of_ascii c in
  if ((97 <=? n)%nat && (n <=? 122)%nat)%bool then ascii_of_nat (n - 32) else c.

Fixpoint upper (s : string) : string :=
  match s with
  | EmptyString => EmptyString
  | String c s' => String (upper_ascii c) (upper s')
  end.

(** [x in [a, b]] on strings. *)
Definition str_in (x : string) (l : list string) : bool :=
  bool_decide (x ∈ l).

(** ** Timestamps *)

Definition Timestamp := Z.

Definition NS_PER_HOUR : Z := 3600 * 1000000000.
Definition NS_PER_DAY : Z := 24 * NS_PER_HOUR.

(** [timestamp.hour] *)
Definition ts_hour (t : Timestamp) : Z := (t / NS_PER_HOUR) mod 24.

(** [timedelta(hours=h)], where it is in the range of a [timedelta]
    (see [timedelta_in_range]) *)
Definition timedelta_hours (h : Z) : Z := h * NS_PER_HOUR.

(** [Timedelta.days] *)
Definition td_days (d : Z) : Z := d / NS_PER_DAY.

(** ** Comparisons on rationals, as booleans *)

Definition Qltb (x y : Q) : bool := negb (Qle_bool y x).
Definition Qleb (x y : Q) : bool := Qle_bool x y.

(** ** Configuration *)

Record BacktestConfig := {
  start_date : Timestamp;
  end_date : Timestamp;
  initial_capital : Q;
  risk_per_trade : Q;
  cooldown_hours : Z;
  allowed_sessions : list string;
  lookback_days : Z;
  lookforward_days : Z
}.

(** ** GARCHRegimeRiskCalculator *)

Record GARCHRegimeRiskCalculator := {
  low_vol_threshold : Q;
  high_vol_threshold : Q;
  sl_low : Q;
  sl_med : Q;
  sl_high : Q;
  rr_ratio : Q
}.

Definition get_volatility_regime (rc : GARCHRegimeRiskCalculator) (garch_vol : Q) : string :=
  if Qltb garch_vol (low_vol_threshold rc) then "LOW"
  else if Qltb garch_vol (high_vol_threshold rc) then "MEDIUM"
  else "HIGH".

Definition is_long_dir (direction : string) : bool :=
  str_in (upper direction) ["LONG"; "BUY"]%string.

Definition calculate_stops (rc : GARCHRegimeRiskCalculator)
    (entry_price : Q) (direction : string) (garch_vol : Q) : Q * Q :=
  let regime := get_volatility_regime rc garch_vol in
  let sl_distance :=
    if String.eqb regime "LOW" then sl_low rc
    else if String.eqb regime "MEDIUM" then sl_med rc
    else sl_high rc in
  let tp_distance := (sl_distance * rr_ratio rc)%Q in
  if is_long_dir direction then
    ((entry_price - sl_distance)%Q, (entry_price + tp_distance)%Q)
  else
    ((entry_price + sl_distance)%Q, (entry_price - tp_distance)%Q).

(** ** Sessions *)

Definition session_of_hour (hour : Z) : string :=
  if ((0 <=? hour) && (hour <? 8))%bool then "Asian"
  else if ((8 <=? hour) && (hour <? 13))%bool then "London"
  else if ((13 <=? hour) && (hour <? 22))%bool then "New_York"
  else "Off_Hours".

Definition get_session (timestamp : Timestamp) : string :=
  session_of_hour (ts_hour timestamp).

(** ** Data model *)

Record PriceBar := {
  bar_time : Timestamp;
  bar_open : Q;
  bar_high : Q;
  bar_low : Q;
  bar_close : Q;
  bar_volume : Q
}.

(** A row of the signal frame: [sig['timestamp']], [sig['direction']] and
    the remaining columns, which only the confirmation oracle reads. *)
Record Signal := {
  sig_timestamp : Timestamp;
  sig_direction : string;
  sig_extra : list (string * string)
}.

(** A context frame: its rows, each the index with the row as [to_dict()]
    returns it; [None] is Python's [None].  The rows of a frame carry the
    frame's columns, so a column that one row lacks is lacked by all of them
    (a cell left empty by the loader holds nan, which is a value). *)
Abbreviation ContextFrame := (option (list (Timestamp * gmap string Q))).

Record Trade := {
  signal_time : Timestamp;
  entry_time : Timestamp;
  session : string;
  direction : string;
  entry_price : Q;
  sl_price : Q;
  tp_price : Q;
  exit_type : string;
  exit_time : Timestamp;
  exit_price : Q;
  pnl : Q;
  r_multiple : Q;
  equity : Q;
  garch_vol : Q
}.

(** ** Plug-in interfaces *)

Record RiskCalculator := {
  rc_calculate_stops : Q -> string -> Q -> Q * Q
}.

Definition garch_risk_calculator (rc : GARCHRegimeRiskCalculator) : RiskCalculator :=
  {| rc_calculate_stops := calculate_stops rc |}.

Record SignalConfirmation := {
  confirm_signal : Signal -> gmap string (option (gmap string Q)) -> Q -> bool;
  calculate_confirmation_score : Signal -> gmap string (option (gmap string Q)) -> Q
}.

(** ** DataLoader.get_nearest_context *)

Definition get_nearest_context (df : ContextFrame) (timestamp : Timestamp)
    : option (gmap string Q) :=
  match df with
  | None => None
  | Some rows =>
      if (length rows =? 0)%nat then None
      else
        let masked := List.filter (fun row => fst row <=? timestamp) rows in
        match last masked with
        | None => None
        | Some row => Some (snd row)
        end
  end.

(** ** The engine *)

Record FilterStats := {
  total_signals : nat;
  cooldown_blocked : nat;
  session_blocked : nat;
  no_entry_bar : nat;
  no_context : nat;
  not_confirmed : nat;
  trades_executed : nat
}.

Definition zero_stats : FilterStats :=
  {| total_signals := 0; cooldown_blocked := 0; session_blocked := 0;
     no_entry_bar := 0; no_context := 0; not_confirmed := 0;
     trades_executed := 0 |}.

Definition incr_total_signals (s : FilterStats) : FilterStats :=
  {| total_signals := S (total_signals s); cooldown_blocked := cooldown_blocked s;
     session_blocked := session_blocked s; no_entry_bar := no_entry_bar s;
     no_context := no_context s; not_confirmed := not_confirmed s;
     trades_executed := trades_executed s |}.

Definition incr_cooldown_blocked (s : FilterStats) : FilterStats :=
  {| total_signals := total_signals s; cooldown_blocked := S (cooldown_blocked s);
     session_blocked := session_blocked s; no_entry_bar := no_entry_bar s;
     no_context := no_context s; not_confirmed := not_confirmed s;
     trades_executed := trades_executed s |}.

Definition incr_session_blocked (s : FilterStats) : FilterStats :=
  {| total_signals := total_signals s; cooldown_blocked := cooldown_blocked s;
     session_blocked := S (session_blocked s); no_entry_bar := no_entry_bar s;
     no_context := no_context s; not_confirmed := not_confirmed s;
     trades_executed := trades_executed s |}.

Definition incr_no_entry_bar (s : FilterStats) : FilterStats :=
  {| total_signals := total_signals s; cooldown_blocked := cooldown_blocked s;
     session_blocked := session_blocked s; no_entry_bar := S (no_entry_bar s);
     no_context := no_context s; not_confirmed := not_confirmed s;
     trades_executed := trades_executed s |}.

Definition incr_no_context (s : FilterStats) : FilterStats :=
  {| total_signals := total_signals s; cooldown_blocked := cooldown_blocked s;
     session_blocked := session_blocked s; no_entry_bar := no_entry_bar s;
     no_context := S (no_context s); not_confirmed := not_confirmed s;
     trades_executed := trades_executed s |}.

Definition incr_not_confirmed (s : FilterStats) : FilterStats :=
  {| total_signals := total_signals s; cooldown_blocked := cooldown_blocked s;
     session_blocked := session_blocked s; no_entry_bar := no_entry_bar s;
     no_context := no_context s; not_confirmed := S (not_confirmed s);
     trades_executed := trades_executed s |}.

Definition incr_trades_executed (s : FilterStats) : FilterStats :=
  {| total_signals := total_signals s; cooldown_blocked := cooldown_blocked s;
     session_blocked := session_blocked s; no_entry_bar := no_entry_bar s;
     no_context := no_context s; not_confirmed := not_confirmed s;
     trades_executed := S (trades_executed s) |}.

Record BacktestEngine := {
  config : BacktestConfig;
  risk_calculator : RiskCalculator;
  confirmation : option SignalConfirmation
}.

(** The locals [equity] and [last_trade_time] of [run_backtest] together
    with the attributes of [self] that the loop mutates. *)
Record EngineState := {
  cur_equity : Q;
  last_trade_time : option Timestamp;
  trades : list Trade;
  equity_curve : list (Timestamp * Q);
  filter_stats : FilterStats
}.

Definition with_stats (st : EngineState) (fs : FilterStats) : EngineState :=
  {| cur_equity := cur_equity st; last_trade_time := last_trade_time st;
     trades := trades st; equity_curve := equity_curve st; filter_stats := fs |}.

(** *** _simulate_trade *)

Definition TradeResult : Type := string * Timestamp * Q * Q.

Definition MAX_BARS : nat := Z.to_nat 10080.

(** The body of the loop over [future_bars].  The quotient of a target
    exit is the source's where [sl_price] differs from [entry_price]; at
    [sl_price = entry_price] the source divides by zero (inf or nan with
    NumPy floats, ZeroDivisionError with Python floats), and the properties
    of the R-multiple of a target exit are stated away from that case. *)
Definition check_bar (is_long : bool) (entry_price sl_price tp_price : Q)
    (bar : PriceBar) : option TradeResult :=
  let sl_hit := if is_long then Qleb (bar_low bar) sl_price
                else Qleb sl_price (bar_high bar) in
  let tp_hit := if is_long then Qleb tp_price (bar_high bar)
                else Qleb (bar_low bar) tp_price in
  if (sl_hit && tp_hit)%bool then Some ("SL"%string, bar_time bar, sl_price, (-1)%Q)
  else if sl_hit then Some ("SL"%string, bar_time bar, sl_price, (-1)%Q)
  else if tp_hit then
    let rr := (Qabs (tp_price - entry_price) / Qabs (sl_price - entry_price))%Q in
    Some ("TP"%string, bar_time bar, tp_price, rr)
  else None.

Fixpoint scan_bars (is_long : bool) (entry_price sl_price tp_price : Q)
    (future_bars : list PriceBar) : option TradeResult :=
  match future_bars with
  | [] => None
  | bar :: rest =>
      match check_bar is_long entry_price sl_price tp_price bar with
      | Some r => Some r
      | None => scan_bars is_long entry_price sl_price tp_price rest
      end
  end.

Definition future_bars_of (price_data : list PriceBar) (entry_time : Timestamp)
    (max_bars : nat) : list PriceBar :=
  take max_bars (List.filter (fun b => entry_time <? bar_time b) price_data).

Definition _simulate_trade (price_data : list PriceBar) (entry_time : Timestamp)
    (entry_price : Q) (direction : string) (sl_price tp_price : Q)
    (max_bars : nat) : option TradeResult :=
  let future_bars := future_bars_of price_data entry_time max_bars in
  let is_long := is_long_dir direction in
  scan_bars is_long entry_price sl_price tp_price future_bars.

(** *** run_backtest *)

(** Which [continue] (or the end of the loop body) a signal leaves through.
    [Unresolved] is the path on which [_simulate_trade] returned [None]; the
    source keeps no counter for it. *)
Inductive Outcome :=
  | CooldownBlocked
  | SessionBlocked
  | NoEntryBar
  | NoContext
  | NotConfirmed
  | Executed
  | Unresolved.

Global Instance Outcome_eq_dec : EqDecision Outcome.
Proof. solve_decision. Defined.

(** [price_data[price_data.index > signal_time].iloc[0]]; [None] is the
    [IndexError]. *)
Definition first_bar_after (price_data : list PriceBar) (t : Timestamp)
    : option PriceBar :=
  head (List.filter (fun b => t <? bar_time b) price_data).

(** The context dict built at step 4. *)
Definition load_context (context_data : gmap string ContextFrame)
    (t : Timestamp) : gmap string (option (gmap string Q)) :=
  (fun ctx_df => get_nearest_context ctx_df t) <$> context_data.

(** [last_trade_time and (signal_time - last_trade_time) < cooldown_delta] *)
Definition in_cooldown (last : option Timestamp) (t : Timestamp)
    (cooldown_delta : Z) : bool :=
  match last with
  | None => false
  | Some lt => t - lt <? cooldown_delta
  end.

(** [self.confirmation and not self.confirmation.confirm_signal(...)] *)
Definition rejected_by (c : option SignalConfirmation) (sig : Signal)
    (context : gmap string (option (gmap string Q))) (price : Q) : bool :=
  match c with
  | None => false
  | Some o => negb (confirm_signal o sig context price)
  end.

(** [self.filter_stats['total_signals'] += 1] *)
Definition count_signal (st : EngineState) : EngineState :=
  with_stats st (incr_total_signals (filter_stats st)).

(** The block under [if trade_result:]: the trade it builds ... *)
Definition make_trade (cfg : BacktestConfig) (cur : Q) (t : Timestamp)
    (sess dir : string) (price : Q) (etime : Timestamp) (sl tp vol : Q)
    (trade_result : TradeResult) : Trade :=
  let '(x_type, x_time, x_price, r) := trade_result in
  let pnl_ := (risk_per_trade cfg * r)%Q in
  let equity_ := (cur + pnl_)%Q in
  {| signal_time := t; entry_time := etime; session := sess;
     direction := dir; entry_price := price; sl_price := sl;
     tp_price := tp; exit_type := x_type; exit_time := x_time;
     exit_price := x_price; pnl := pnl_; r_multiple := r;
     equity := equity_; garch_vol := vol |}.

(** ... and the state it leaves. *)
Definition record_trade (st : EngineState) (trade : Trade) : EngineState :=
  {| cur_equity := equity trade;
     last_trade_time := Some (signal_time trade);
     trades := trades st ++ [trade];
     equity_curve := equity_curve st ++ [(signal_time trade, equity trade)];
     filter_stats := incr_trades_executed (filter_stats st) |}.

(** The body of the loop over the signals. *)
Definition process_signal (self : BacktestEngine) (price_data : list PriceBar)
    (context_data : gmap string ContextFrame)
    (st : EngineState) (sig : Signal) : Outcome * EngineState :=
  let cfg := config self in
  let cooldown_delta := timedelta_hours (cooldown_hours cfg) in
  let t := sig_timestamp sig in
  let st := count_signal st in
  if in_cooldown (last_trade_time st) t cooldown_delta then
    (CooldownBlocked, with_stats st (incr_cooldown_blocked (filter_stats st)))
  else
    let sess := get_session t in
    if negb (str_in sess (allowed_sessions cfg)) then
      (SessionBlocked, with_stats st (incr_session_blocked (filter_stats st)))
    else
      match first_bar_after price_data t with
      | None => (NoEntryBar, with_stats st (incr_no_entry_bar (filter_stats st)))
      | Some entry_bar =>
          let price := bar_open entry_bar in
          let etime := bar_time entry_bar in
          let context := load_context context_data t in
          match context !! "garch"%string with
          | Some (Some garch) =>
              let vol := default (30 : Q) (garch !! "vol"%string) in
              if rejected_by (confirmation self) sig context price then
                (NotConfirmed, with_stats st (incr_not_confirmed (filter_stats st)))
              else
                let dir := sig_direction sig in
                let stops := rc_calculate_stops (risk_calculator self) price dir vol in
                let sl := fst stops in
                let tp := snd stops in
                match _simulate_trade price_data etime price dir sl tp MAX_BARS with
                | Some trade_result =>
                    (Executed,
                     record_trade st
                       (make_trade cfg (cur_equity st) t sess dir price etime
                          sl tp vol trade_result))
                | None => (Unresolved, st)
                end
          | _ => (NoContext, with_stats st (incr_no_context (filter_stats st)))
          end
      end.

(** The values the loop body computes for a signal once its entry bar and
    its volatility snapshot are known. *)
Definition signal_vol (garch : gmap string Q) : Q :=
  default (30 : Q) (garch !! "vol"%string).

Definition signal_stops (self : BacktestEngine) (sig : Signal) (bar : PriceBar)
    (garch : gmap string Q) : Q * Q :=
  rc_calculate_stops (risk_calculator self) (bar_open bar)
    (sig_direction sig) (signal_vol garch).

Definition signal_simulation (self : BacktestEngine) (price_data : list PriceBar)
    (sig : Signal) (bar : PriceBar) (garch : gmap string Q) : option TradeResult :=
  _simulate_trade price_data (bar_time bar) (bar_open bar) (sig_direction sig)
    (fst (signal_stops self sig bar garch)) (snd (signal_stops self sig bar garch))
    MAX_BARS.

Definition signal_trade (self : BacktestEngine) (st : EngineState) (sig : Signal)
    (bar : PriceBar) (garch : gmap string Q) (res : TradeResult) : Trade :=
  make_trade (config self) (cur_equity st) (sig_timestamp sig)
    (get_session (sig_timestamp sig)) (sig_direction sig)
    (bar_open bar) (bar_time bar)
    (fst (signal_stops self sig bar garch)) (snd (signal_stops self sig bar garch))
    (signal_vol garch) res.

Fixpoint run_loop (self : BacktestEngine) (price_data : list PriceBar)
    (context_data : gmap string ContextFrame)
    (st : EngineState) (signals : list Signal) : list Outcome * EngineState :=
  match signals with
  | [] => ([], st)
  | sig :: rest =>
      let '(o, st1) := process_signal self price_data context_data st sig in
      let '(os, st2) := run_loop self price_data context_data st1 rest in
      (o :: os, st2)
  end.

Definition init_state (cfg : BacktestConfig) : EngineState :=
  {| cur_equity := initial_capital cfg;
     last_trade_time := None;
     trades := [];
     equity_curve := [(start_date cfg, initial_capital cfg)];
     filter_stats := zero_stats |}.

(** The signals kept by the date-range mask. *)
Definition in_date_range (cfg : BacktestConfig) (signals : list Signal) : list Signal :=
  List.filter (fun sig => (start_date cfg <=? sig_timestamp sig)
                          && (sig_timestamp sig <=? end_date cfg))%bool signals.

(** The run with the per-signal outcomes kept alongside the final state. *)
Definition run_trace (self : BacktestEngine) (price_data : list PriceBar)
    (signals : list Signal) (context_data : gmap string ContextFrame)
    : list Outcome * EngineState :=
  run_loop self price_data context_data (init_state (config self))
    (in_date_range (config self) signals).

Definition run_backtest (self : BacktestEngine) (price_data : list PriceBar)
    (signals : list Signal) (context_data : gmap string ContextFrame)
    : list Trade * list (Timestamp * Q) * FilterStats :=
  let st := snd (run_trace self price_data signals context_data) in
  (trades st, equity_curve st, filter_stats st).

(** [cooldown_delta = timedelta(hours=self.config.cooldown_hours)] is
    evaluated ahead of the date mask and of the loop; [timedelta] normalises
    to days and seconds and raises [OverflowError] when the day count leaves
    -999999999 .. 999999999. *)
Inductive PyError : Type := OverflowError.

Definition timedelta_in_range (h : Z) : bool :=
  ((-999999999 <=? h / 24) && (h / 24 <=? 999999999))%bool.

(** [run_backtest] with that failure. *)
Definition run_backtest_raising (self : BacktestEngine) (price_data : list PriceBar)
    (signals : list Signal) (context_data : gmap string ContextFrame)
    : PyError + (list Trade * list (Timestamp * Q) * FilterStats) :=
  if timedelta_in_range (cooldown_hours (config self))
  then inr (run_backtest self price_data signals context_data)
  else inl OverflowError.

(** How many signals of the run left the loop body through [o]. *)
Definition count_outcome (o : Outcome) (os : list Outcome) : nat :=
  length (List.filter (fun o' => bool_decide (o' = o)) os).

(** ** PerformanceAnalytics *)

(** Python's [sum]: a left fold from 0. *)
Definition Qsum (xs : list Q) : Q := fold_left Qplus xs (0 : Q).

Definition Qofnat (n : nat) : Q := inject_Z (Z.of_nat n).

(** Python's [max(a, b)]: [b] only when it is strictly larger. *)
Definition py_max (a b : Q) : Q := if Qltb a b then b else a.

(** One turn of the drawdown loop on [(peak, max_drawdown, max_drawdown_pct)]. *)
Definition drawdown_step (acc : Q * Q * Q) (eq : Q) : Q * Q * Q :=
  let '(peak, max_dd, max_dd_pct) := acc in
  let peak := if Qltb peak eq then eq else peak in
  let drawdown := (peak - eq)%Q in
  let drawdown_pct := if Qltb 0 peak then (drawdown / peak)%Q else (0 : Q) in
  (peak, py_max max_dd drawdown, py_max max_dd_pct drawdown_pct).

(** [(last_trade - first_trade).days or 1]; the list is not empty where the
    source evaluates this, the last branch is never taken there. *)
Definition trading_days (ts : list Trade) : Z :=
  match head ts, last ts with
  | Some first_trade, Some last_trade =>
      let d := td_days (signal_time last_trade - signal_time first_trade) in
      if d =? 0 then 1 else d
  | _, _ => 1
  end.

(** [len(trades) / trading_days * 252] *)
Definition trades_per_year (ts : list Trade) : Q :=
  (Qofnat (length ts) / inject_Z (trading_days ts) * 252)%Q.

Definition count_wins (r_multiples : list Q) : nat :=
  length (List.filter (fun r => Qltb 0 r) r_multiples).

Definition gross_profit_of (r_multiples : list Q) : Q :=
  Qsum (List.filter (fun r => Qltb 0 r) r_multiples).

Definition gross_loss_of (r_multiples : list Q) : Q :=
  Qabs (Qsum (List.filter (fun r => Qltb r 0) r_multiples)).

Definition win_rate_of (r_multiples : list Q) : Q :=
  match r_multiples with
  | [] => 0
  | _ => (Qofnat (count_wins r_multiples) / Qofnat (length r_multiples))%Q
  end.

Definition avg_win_of (r_multiples : list Q) : Q :=
  let wins := count_wins r_multiples in
  if (0 <? wins)%nat then (gross_profit_of r_multiples / Qofnat wins)%Q else 0.

Definition avg_loss_of (r_multiples : list Q) : Q :=
  let losses := (length r_multiples - count_wins r_multiples)%nat in
  if (0 <? losses)%nat then (gross_loss_of r_multiples / Qofnat losses)%Q else 0.

Definition expectancy_of (r_multiples : list Q) : Q :=
  let win_rate := win_rate_of r_multiples in
  (win_rate * avg_win_of r_multiples
   - (1 - win_rate) * avg_loss_of r_multiples)%Q.

Record Metrics := {
  m_total_trades : nat;
  m_total_r : Q;
  m_win_rate : Q;
  m_profit_factor : option Q;   (* [None] is [float('inf')] *)
  m_max_drawdown : Q;
  m_max_drawdown_pct : Q;
  m_avg_r_per_trade : Q;
  m_expectancy : Q;
  m_sharpe_ratio : Q;
  m_avg_win : Q;
  m_avg_loss : Q;
  m_final_equity : Q
}.

(** The three functions of NumPy the analytics call, with the values the
    library returns: [np.mean], [np.std] with its [ddof] argument, and
    [np.sqrt]. *)
Record NumPy := {
  np_mean : list Q -> Q;
  np_std : list Q -> nat -> Q;
  np_sqrt : Q -> Q
}.

Section Analytics.

Variable np : NumPy.

(** The Sharpe block: [np.mean(r_multiples)], [np.std(r_multiples, ddof=1)]
    and [np.sqrt(trades_per_year)]. *)
Definition sharpe_ratio_of (ts : list Trade) : Q :=
  let r_multiples := map r_multiple ts in
  if (2 <=? length r_multiples)%nat then
    let mean_r := np_mean np r_multiples in
    let std_r := np_std np r_multiples 1 in
    if Qltb 0 std_r
    then (mean_r / std_r * np_sqrt np (trades_per_year ts))%Q
    else 0
  else 0.

(** [calculate_metrics]; [None] is the empty dict.  The [monthly_r]
    breakdown, a report by calendar month, is left out. *)
Definition calculate_metrics (ts : list Trade) (initial_capital : Q)
    : option Metrics :=
  match ts with
  | [] => None
  | _ =>
      let r_multiples := map r_multiple ts in
      let equity_values := map equity ts in
      let total_r := Qsum r_multiples in
      let '(_, max_drawdown, max_drawdown_pct) :=
        fold_left drawdown_step equity_values
          (initial_capital, (0 : Q), (0 : Q)) in
      let gross_profit := gross_profit_of r_multiples in
      let gross_loss := gross_loss_of r_multiples in
      Some {|
        m_total_trades := length ts;
        m_total_r := total_r;
        m_win_rate := win_rate_of r_multiples;
        m_profit_factor :=
          if Qltb 0 gross_loss then Some (gross_profit / gross_loss)%Q else None;
        m_max_drawdown := max_drawdown;
        m_max_drawdown_pct := (max_drawdown_pct * 100)%Q;
        m_avg_r_per_trade := (total_r / Qofnat (length ts))%Q;
        m_expectancy := expectancy_of r_multiples;
        m_sharpe_ratio := sharpe_ratio_of ts;
        m_avg_win := avg_win_of r_multiples;
        m_avg_loss := avg_loss_of r_multiples;
        m_final_equity := default initial_capital (last equity_values)
      |}
  end.

End Analytics.

(** ** The specification's vocabulary, for comparison with the code *)

Definition session_names : list string :=
  ["Asian"; "London"; "New_York"; "Off_Hours"]%string.

(** A bar's range reaches the stop (long: low <= stop; short: mirrored). *)
Definition crosses_stop (is_long : bool) (stop : Q) (bar : PriceBar) : Prop :=
  if is_long then (bar_low bar <= stop)%Q else (stop <= bar_high bar)%Q.

(** A bar's range reaches the target (long: high >= target; short: mirrored). *)
Definition crosses_target (is_long : bool) (target : Q) (bar : PriceBar) : Prop :=
  if is_long then (target <= bar_high bar)%Q else (bar_low bar <= target)%Q.

(** The mean of a class of values, 0 when the class is empty. *)
Definition class_mean (xs : list Q) : Q :=
  match xs with
  | [] => 0
  | _ => (Qsum xs / Qofnat (length xs))%Q
  end.

Definition positives (rs : list Q) : list Q := List.filter (fun r => Qltb 0 r) rs.
Definition negatives (rs : list Q) : list Q := List.filter (fun r => Qltb r 0) rs.
Definition non_positives (rs : list Q) : list Q := List.filter (fun r => Qleb r 0) rs.

Definition spec_win_rate (rs : list Q) : Q :=
  (Qofnat (length (positives rs)) / Qofnat (length rs))%Q.

Definition spec_avg_win (rs : list Q) : Q := class_mean (positives rs).

(** Mean of the absolute values of the strictly negative R-multiples. *)
Definition spec_avg_loss (rs : list Q) : Q := class_mean (map Qabs (negatives rs)).

(** Mean of the absolute values over every trade that is not a win. *)
Definition loss_class_avg (rs : list Q) : Q := class_mean (map Qabs (non_positives rs)).

Definition spec_expectancy (rs : list Q) : Q :=
  (spec_win_rate rs * spec_avg_win rs - (1 - spec_win_rate rs) * spec_avg_loss rs)%Q.

(** Days between the first and the last signal of a trade list. *)
Definition elapsed_days (ts : list Trade) : Z :=
  match head ts, last ts with
  | Some f, Some l => td_days (signal_time l - signal_time f)
  | _, _ => 0
  end.

(** The annualization factor with the elapsed days floored at 1. *)
Definition spec_annualization (ts : list Trade) : Q :=
  (Qofnat (length ts) / inject_Z (Z.max 1 (elapsed_days ts)) * 252)%Q.

(** The trade list is in chronological order from end to end: the signal
    of its last trade is not before the signal of its first. *)
Definition chronological (ts : list Trade) : Prop :=
  forall f l : Trade, head ts = Some f -> last ts = Some l ->
    signal_time f <= signal_time l.

(** The equity recorded before the trade at position [i]. *)
Definition equity_before (initial : Q) (ts : list Trade) (i : nat) : Q :=
  match i with
  | O => initial
  | S j => default initial (equity <$> ts !! j)
  end.

(** The equity sequence a trade list stands for: the seed point, then one
    point per trade. *)
Definition curve_of (cfg : BacktestConfig) (ts : list Trade) : list (Timestamp * Q) :=
  (start_date cfg, initial_capital cfg)
  :: map (fun t => (signal_time t, equity t)) ts.

(** The equity after the last trade, the starting capital when there is none. *)
Definition last_equity (initial : Q) (ts : list Trade) : Q :=
  default initial (equity <$> last ts).

(** The accounting identities of a trade list, and the running state that
    goes with it. *)
Definition ledger_ok (cfg : BacktestConfig) (st : EngineState) : Prop :=
  (forall (i : nat) (t : Trade), trades st !! i = Some t ->
     pnl t = (risk_per_trade cfg * r_multiple t)%Q
     /\ equity t = (equity_before (initial_capital cfg) (trades st) i + pnl t)%Q)
  /\ cur_equity st = last_equity (initial_capital cfg) (trades st)
  /\ equity_curve st = curve_of cfg (trades st).

(** ** Further source functions *)

(** [BacktestConfig.__post_init__]: the allow-list when none is given. *)
Definition post_init_sessions (given : option (list string)) : list string :=
  match given with
  | None => ["London"; "New_York"]%string
  | Some l => l
  end.

(** [DataLoader.load_signals], the direction column of one row:
    [str.upper()], then BUY becomes LONG and SELL becomes SHORT. *)
Definition standardize_direction (d : string) : string :=
  let u := upper d in
  if String.eqb u "BUY" then "LONG"%string
  else if String.eqb u "SELL" then "SHORT"%string
  else u.

(** The same over the rows of the signal frame, before they are sorted. *)
Definition standardize_signals (rows : list Signal) : list Signal :=
  map (fun s => {| sig_timestamp := sig_timestamp s;
                   sig_direction := standardize_direction (sig_direction s);
                   sig_extra := sig_extra s |}) rows.

(** ** Further vocabulary *)

(** The signals come in ascending time, as [load_signals] returns them
    ([df.sort_values('timestamp')]). *)
Definition signals_ascending (signals : list Signal) : Prop :=
  StronglySorted (fun s1 s2 => sig_timestamp s1 <= sig_timestamp s2) signals.

(** The trades come in ascending signal time. *)
Definition trades_ascending (ts : list Trade) : Prop :=
  StronglySorted (fun t1 t2 => signal_time t1 <= signal_time t2) ts.

(** A bar that reaches neither level. *)
Definition quiet_bar (is_long : bool) (stop target : Q) (bar : PriceBar) : Prop :=
  ~ crosses_stop is_long stop bar /\ ~ crosses_target is_long target bar.

(** A signal inside the configured date window. *)
Definition in_window (cfg : BacktestConfig) (sig : Signal) : Prop :=
  start_date cfg <= sig_timestamp sig <= end_date cfg.

(** Where a trade of a run comes from: a signal of the date window that
    passed the gates, its entry bar, its volatility snapshot and the
    outcome of its simulation. *)
Definition trade_origin (self : BacktestEngine) (price_data : list PriceBar)
    (context_data : gmap string ContextFrame) (tr : Trade) : Prop :=
  exists (st : EngineState) (sig : Signal) (bar : PriceBar)
         (g : gmap string Q) (res : TradeResult),
    in_window (config self) sig
    /\ str_in (get_session (sig_timestamp sig))
         (allowed_sessions (config self)) = true
    /\ first_bar_after price_data (sig_timestamp sig) = Some bar
    /\ load_context context_data (sig_timestamp sig) !! "garch"%string
       = Some (Some g)
    /\ signal_simulation self price_data sig bar g = Some res
    /\ tr = signal_trade self st sig bar g res.

(** Consecutive trades are at least [delta] apart, signal to signal. *)
Definition spaced_by (delta : Z) (ts : list Trade) : Prop :=
  forall (i : nat) (t1 t2 : Trade),
    ts !! i = Some t1 -> ts !! S i = Some t2 ->
    delta <= signal_time t2 - signal_time t1.

(** The rows of a frame come in ascending order of their index. *)
Definition ascending_index (rows : list (Timestamp * gmap string Q)) : Prop :=
  forall (i j : nat) (ri rj : Timestamp * gmap string Q),
    (i <= j)%nat -> rows !! i = Some ri -> rows !! j = Some rj ->
    fst ri <= fst rj.

(** A trade with its direction cleaned as the loader cleans a signal's. *)
Definition standardize_trade (tr : Trade) : Trade :=
  {| signal_time := signal_time tr; entry_time := entry_time tr;
     session := session tr;
     direction := standardize_direction (direction tr);
     entry_price := entry_price tr; sl_price := sl_price tr;
     tp_price := tp_price tr; exit_type := exit_type tr;
     exit_time := exit_time tr; exit_price := exit_price tr;
     pnl := pnl tr; r_multiple := r_multiple tr; equity := equity tr;
     garch_vol := garch_vol tr |}.

(** An engine state with the directions of its trades cleaned. *)
Definition standardize_state (st : EngineState) : EngineState :=
  {| cur_equity := cur_equity st; last_trade_time := last_trade_time st;
     trades := map standardize_trade (trades st);
     equity_curve := equity_curve st; filter_stats := filter_stats st |}.

(** An equity sequence that never falls: each value is at least the one
    before it, the first at least [prev]. *)
Fixpoint non_declining (prev : Q) (equity_values : list Q) : Prop :=
  match equity_values with
  | [] => True
  | e :: rest => (prev <= e)%Q /\ non_declining e rest
  end.

(** The drawdown loop of [calculate_metrics] over a list of equity values. *)
Definition drawdown_scan (initial_capital : Q) (equity_values : list Q) : Q * Q * Q :=
  fold_left drawdown_step equity_values (initial_capital, (0 : Q), (0 : Q)).

(** ** Concrete inputs *)

Definition hours (h : Z) : Timestamp := h * NS_PER_HOUR.
Definition minutes (m : Z) : Z := m * 60 * 1000000000.

Definition ex_config : BacktestConfig :=
  {| start_date := 0; end_date := hours 240;
     initial_capital := 100; risk_per_trade := 5;
     cooldown_hours := 12;
     allowed_sessions := ["London"; "New_York"]%string;
     lookback_days := 3; lookforward_days := 3 |}.

Definition ex_garch : GARCHRegimeRiskCalculator :=
  {| low_vol_threshold := 25; high_vol_threshold := 35;
     sl_low := 200; sl_med := 250; sl_high := 350; rr_ratio := 2 |}.

Definition ex_engine : BacktestEngine :=
  {| config := ex_config;
     risk_calculator := garch_risk_calculator ex_garch;
     confirmation := None |}.

Definition mk_bar (t : Timestamp) (o h l c : Q) : PriceBar :=
  {| bar_time := t; bar_open := o; bar_high := h; bar_low := l;
     bar_close := c; bar_volume := 0 |}.

(** Entry at 1000 one minute after 14:00; the next bar runs to 1600, the
    bar after the second entry falls to 700. *)
Definition ex_prices : list PriceBar :=
  [ mk_bar (hours 14 + minutes 1) 1000 1010 990 1000;
    mk_bar (hours 14 + minutes 2) 1000 1600 995 1500;
    mk_bar (hours 38 + minutes 1) 1000 1005 995 1000;
    mk_bar (hours 38 + minutes 2) 1000 1001 700 800 ].

(** A quiet tape: neither level is ever reached. *)
Definition ex_quiet_prices : list PriceBar :=
  [ mk_bar (hours 14 + minutes 1) 1000 1010 990 1000;
    mk_bar (hours 14 + minutes 2) 1000 1010 995 1005 ].

Definition mk_signal (t : Timestamp) (d : string) : Signal :=
  {| sig_timestamp := t; sig_direction := d; sig_extra := [] |}.

Definition ex_signals : list Signal :=
  [ mk_signal (hours 14) "LONG"; mk_signal (hours 38) "long" ].

(** A volatility source whose rows carry a [vol] column. *)
Definition ex_context : gmap string ContextFrame :=
  {[ "garch"%string := Some [ (hours 1, ({[ "vol"%string := (20 : Q) ]} : gmap string Q)) ] ]}.

(** A volatility source whose rows have no [vol] column. *)
Definition ex_context_no_vol : gmap string ContextFrame :=
  {[ "garch"%string := Some [ (hours 1, ({[ "sigma"%string := (20 : Q) ]} : gmap string Q)) ] ]}.

Definition ex_config_end_before_start : BacktestConfig :=
  {| start_date := hours 240; end_date := 0;
     initial_capital := 100; risk_per_trade := 5;
     cooldown_hours := 12;
     allowed_sessions := ["London"; "New_York"]%string;
     lookback_days := 3; lookforward_days := 3 |}.

Definition ex_config_negative_cooldown : BacktestConfig :=
  {| start_date := 0; end_date := hours 240;
     initial_capital := 100; risk_per_trade := 5;
     cooldown_hours := -12;
     allowed_sessions := ["London"; "New_York"]%string;
     lookback_days := 3; lookforward_days := 3 |}.

Definition engine_with (cfg : BacktestConfig) : BacktestEngine :=
  {| config := cfg;
     risk_calculator := garch_risk_calculator ex_garch;
     confirmation := None |}.

Definition mk_trade (t : Timestamp) (r : Q) (e : Q) : Trade :=
  {| signal_time := t; entry_time := t + minutes 1; session := "New_York";
     direction := "LONG"; entry_price := 1000; sl_price := 750;
     tp_price := 1500; exit_type := "TP"; exit_time := t + minutes 2;
     exit_price := 1500; pnl := 5 * r; r_multiple := r; equity := e;
     garch_vol := 30 |}.

(** A scratch trade (R-multiple 0) followed by a full stop. *)
Definition ex_trades_with_zero : list Trade :=
  [ mk_trade (hours 14) 0 100; mk_trade (hours 38) (-1) 95 ].

(** Two trades three days apart, in order. *)
Definition ex_trades_in_order : list Trade :=
  [ mk_trade (hours 28) 2 110; mk_trade (hours 100) (-1) 105 ].

(** Three trades over three weeks, with R-multiples 3, -1 and 1. *)
Definition ex_trades_three_weeks : list Trade :=
  [ mk_trade (hours 14) 3 115; mk_trade (hours 182) (-1) 110;
    mk_trade (hours 518) 1 115 ].

(** The root of a rational, exact when the rational is a square. *)
Definition Qroot (q : Q) : Q :=
  let r := Qred q in Z.sqrt (Qnum r) # Pos.sqrt (Qden r).

(** The three functions on rationals: the arithmetic mean, the root of the
    squared deviations over [n - ddof], and [Qroot]. *)
Definition rational_numpy : NumPy :=
  {| np_mean := fun xs => (Qsum xs / Qofnat (length xs))%Q;
     np_std := fun xs ddof =>
       let m := (Qsum xs / Qofnat (length xs))%Q in
       Qroot (Qsum (map (fun x => (x - m) * (x - m))%Q xs)
              / Qofnat (length xs - ddof))%Q;
     np_sqrt := Qroot |}.

(** A volatility frame with three snapshots, in ascending order. *)
Definition ex_frame : list (Timestamp * gmap string Q) :=
  [ (hours 1, ({[ "vol"%string := (20 : Q) ]} : gmap string Q));
    (hours 5, ({[ "vol"%string := (30 : Q) ]} : gmap string Q));
    (hours 9, ({[ "vol"%string := (40 : Q) ]} : gmap string Q)) ].

(** * Properties *)

(** ** Comparisons *)

Lemma Qltb_true (x y : Q) : Qltb x y = true <-> (x < y)%Q.
Proof.
  unfold Qltb. rewrite negb_true_iff. split.
  - intros H. apply Qnot_le_lt. intros Hle.
    apply Qle_bool_iff in Hle. congruence.
  - intros H. destruct (Qle_bool y x) eqn:E; [|reflexivity].
    apply Qle_bool_iff in E. exfalso. exact (Qlt_not_le _ _ H E).
Qed.

Lemma Qltb_false (x y : Q) : Qltb x y = false <-> (y <= x)%Q.
Proof.
  unfold Qltb. rewrite negb_false_iff. apply Qle_bool_iff.
Qed.

Lemma Qleb_true (x y : Q) : Qleb x y = true <-> (x <= y)%Q.
Proof. apply Qle_bool_iff. Qed.

Lemma Qleb_false (x y : Q) : Qleb x y = false <-> (y < x)%Q.
Proof.
  unfold Qleb. split.
  - intros H. apply Qnot_le_lt. intros Hle.
    apply Qle_bool_iff in Hle. congruence.
  - intros H. destruct (Qle_bool x y) eqn:E; [|reflexivity].
    apply Qle_bool_iff in E. exfalso. exact (Qlt_not_le _ _ H E).
Qed.

(** ** Sessions *)

Lemma ts_hour_range (t : Timestamp) : 0 <= ts_hour t < 24.
Proof. unfold ts_hour. apply Z.mod_pos_bound. lia. Qed.

Ltac session_cases h :=
  unfold session_of_hour;
  destruct (Z.leb_spec 0 h); destruct (Z.ltb_spec h 8);
  destruct (Z.leb_spec 8 h); destruct (Z.ltb_spec h 13);
  destruct (Z.leb_spec 13 h); destruct (Z.ltb_spec h 22);
  simpl.

(** C9: the session classification is total over timestamps and partitions
    the hours: the hour of every timestamp is one of 0-23, every such hour
    occurs, and [get_session] answers Asian exactly on [0,8), London
    exactly on [8,13), New_York exactly on [13,22) and Off_Hours exactly on
    the remaining hours, so each hour has exactly one session name. *)
Theorem get_session_partitions_hours (t : Timestamp) (h : Z) :
  0 <= ts_hour t < 24
  /\ get_session t ∈ session_names
  /\ (get_session t = "Asian"%string <-> 0 <= ts_hour t < 8)
  /\ (get_session t = "London"%string <-> 8 <= ts_hour t < 13)
  /\ (get_session t = "New_York"%string <-> 13 <= ts_hour t < 22)
  /\ (get_session t = "Off_Hours"%string <-> 22 <= ts_hour t < 24)
  /\ (0 <= h < 24 ->
      ts_hour (h * NS_PER_HOUR) = h
      /\ get_session (h * NS_PER_HOUR) = session_of_hour h)
  /\ (session_of_hour h = "Asian"%string <-> 0 <= h < 8)
  /\ (session_of_hour h = "London"%string <-> 8 <= h < 13)
  /\ (session_of_hour h = "New_York"%string <-> 13 <= h < 22)
  /\ (session_of_hour h = "Off_Hours"%string <-> ~ 0 <= h < 22).
Proof.
  split; [apply ts_hour_range|].
  split.
  { unfold get_session, session_names. generalize (ts_hour t) as k. intros k.
    session_cases k; set_solver. }
  pose proof (ts_hour_range t) as Hr.
  unfold get_session.
  split; [|split; [|split; [|split; [|split]]]].
  - revert Hr. generalize (ts_hour t) as k. intros k Hr.
    session_cases k; split; intros; try lia; try discriminate; try reflexivity.
  - revert Hr. generalize (ts_hour t) as k. intros k Hr.
    session_cases k; split; intros; try lia; try discriminate; try reflexivity.
  - revert Hr. generalize (ts_hour t) as k. intros k Hr.
    session_cases k; split; intros; try lia; try discriminate; try reflexivity.
  - revert Hr. generalize (ts_hour t) as k. intros k Hr.
    session_cases k; split; intros; try lia; try discriminate; try reflexivity.
  - intros Hh.
    assert (E : ts_hour (h * NS_PER_HOUR) = h).
    { unfold ts_hour. rewrite Z.div_mul by (unfold NS_PER_HOUR; lia).
      apply Z.mod_small. lia. }
    split; [exact E|]. now rewrite E.
  - session_cases h; repeat split; intros; try lia; try discriminate; try reflexivity.
Qed.

(** ** Risk model *)

Lemma upper_ascii_idemp (c : ascii) : upper_ascii (upper_ascii c) = upper_ascii c.
Proof. destruct c as [[] [] [] [] [] [] [] []]; reflexivity. Qed.

Lemma upper_idemp (s : string) : upper (upper s) = upper s.
Proof.
  induction s as [|c s IH]; simpl; [reflexivity|].
  now rewrite upper_ascii_idemp, IH.
Qed.

Lemma str_in_true (x : string) (l : list string) : str_in x l = true <-> x ∈ l.
Proof. unfold str_in. apply bool_decide_eq_true. Qed.

Lemma not_long_of_short (d : string) :
  upper d ∈ ["SHORT"; "SELL"]%string -> is_long_dir d = false.
Proof.
  intros H. unfold is_long_dir, str_in. apply bool_decide_eq_false.
  intros Hin.
  apply list_elem_of_In in H. apply list_elem_of_In in Hin. simpl in *.
  destruct H as [H|[H|[]]]; rewrite <- H in Hin;
    destruct Hin as [E|[E|[]]]; discriminate.
Qed.

(** C7: [calculate_stops] classifies the volatility by half-open regimes,
    takes the regime's stop distance, sets the target distance to the stop
    distance times the reward:risk ratio, puts the stop below and the
    target above the entry for LONG/BUY and the other way round for
    SHORT/SELL, and reads the direction case-insensitively. *)
Theorem calculate_stops_by_regime_and_direction
    (rc : GARCHRegimeRiskCalculator) (entry vol : Q) (dir : string) :
  exists d : Q,
    ((vol < low_vol_threshold rc)%Q ->
       get_volatility_regime rc vol = "LOW"%string /\ d = sl_low rc)
    /\ ((low_vol_threshold rc <= vol)%Q /\ (vol < high_vol_threshold rc)%Q ->
       get_volatility_regime rc vol = "MEDIUM"%string /\ d = sl_med rc)
    /\ (~ (vol < low_vol_threshold rc)%Q ->
        ~ ((low_vol_threshold rc <= vol)%Q /\ (vol < high_vol_threshold rc)%Q) ->
       get_volatility_regime rc vol = "HIGH"%string /\ d = sl_high rc)
    /\ (upper dir ∈ ["LONG"; "BUY"]%string ->
        calculate_stops rc entry dir vol
        = ((entry - d)%Q, (entry + d * rr_ratio rc)%Q))
    /\ (upper dir ∈ ["SHORT"; "SELL"]%string ->
        calculate_stops rc entry dir vol
        = ((entry + d)%Q, (entry - d * rr_ratio rc)%Q))
    /\ (forall dir' : string, upper dir' = upper dir ->
        calculate_stops rc entry dir' vol = calculate_stops rc entry dir vol)
    /\ calculate_stops rc entry (upper dir) vol = calculate_stops rc entry dir vol.
Proof.
  set (d := if Qltb vol (low_vol_threshold rc) then sl_low rc
            else if Qltb vol (high_vol_threshold rc) then sl_med rc
            else sl_high rc).
  exists d.
  assert (Hstops : forall dir0 : string,
    calculate_stops rc entry dir0 vol
    = if is_long_dir dir0
      then ((entry - d)%Q, (entry + d * rr_ratio rc)%Q)
      else ((entry + d)%Q, (entry - d * rr_ratio rc)%Q)).
  { intros dir0. unfold calculate_stops, get_volatility_regime, d.
    destruct (Qltb vol (low_vol_threshold rc));
      destruct (Qltb vol (high_vol_threshold rc)); reflexivity. }
  split; [|split; [|split; [|split; [|split; [|split]]]]].
  - intros Hlt. apply Qltb_true in Hlt.
    unfold get_volatility_regime, d. rewrite Hlt. split; reflexivity.
  - intros [Hle Hlt]. apply Qltb_false in Hle. apply Qltb_true in Hlt.
    unfold get_volatility_regime, d. rewrite Hle, Hlt. split; reflexivity.
  - intros Hn1 Hn2.
    assert (El : Qltb vol (low_vol_threshold rc) = false).
    { destruct (Qltb vol (low_vol_threshold rc)) eqn:E; [|reflexivity].
      apply Qltb_true in E. contradiction. }
    assert (Eh : Qltb vol (high_vol_threshold rc) = false).
    { destruct (Qltb vol (high_vol_threshold rc)) eqn:E; [|reflexivity].
      apply Qltb_true in E. exfalso. apply Hn2. split; [|exact E].
      apply Qltb_false. exact El. }
    unfold get_volatility_regime, d. rewrite El, Eh. split; reflexivity.
  - intros H. apply str_in_true in H. rewrite Hstops.
    unfold is_long_dir. rewrite H. reflexivity.
  - intros H. rewrite Hstops, (not_long_of_short _ H). reflexivity.
  - intros dir' E. rewrite !Hstops. unfold is_long_dir. rewrite E. reflexivity.
  - rewrite !Hstops. unfold is_long_dir. rewrite upper_idemp. reflexivity.
Qed.

(** ** Trade simulator *)

Lemma crosses_stop_hit (il : bool) (sl : Q) (b : PriceBar) :
  (if il then Qleb (bar_low b) sl else Qleb sl (bar_high b)) = true
  <-> crosses_stop il sl b.
Proof. unfold crosses_stop. destruct il; apply Qleb_true. Qed.

Lemma crosses_target_hit (il : bool) (tp : Q) (b : PriceBar) :
  (if il then Qleb tp (bar_high b) else Qleb (bar_low b) tp) = true
  <-> crosses_target il tp b.
Proof. unfold crosses_target. destruct il; apply Qleb_true. Qed.

Lemma check_bar_stop (il : bool) (e sl tp : Q) (b : PriceBar) :
  crosses_stop il sl b ->
  check_bar il e sl tp b = Some ("SL"%string, bar_time b, sl, (-1)%Q).
Proof.
  intros H. apply crosses_stop_hit in H. unfold check_bar. rewrite H.
  destruct (if il then Qleb tp (bar_high b) else Qleb (bar_low b) tp); reflexivity.
Qed.

Lemma check_bar_target (il : bool) (e sl tp : Q) (b : PriceBar) :
  ~ crosses_stop il sl b -> crosses_target il tp b ->
  check_bar il e sl tp b
  = Some ("TP"%string, bar_time b, tp, (Qabs (tp - e) / Qabs (sl - e))%Q).
Proof.
  intros Hs Ht. apply crosses_target_hit in Ht. unfold check_bar. rewrite Ht.
  destruct (if il then Qleb (bar_low b) sl else Qleb sl (bar_high b)) eqn:E.
  - exfalso. apply Hs. apply crosses_stop_hit. exact E.
  - reflexivity.
Qed.

Lemma check_bar_quiet (il : bool) (e sl tp : Q) (b : PriceBar) :
  ~ crosses_stop il sl b -> ~ crosses_target il tp b ->
  check_bar il e sl tp b = None.
Proof.
  intros Hs Ht. unfold check_bar.
  destruct (if il then Qleb (bar_low b) sl else Qleb sl (bar_high b)) eqn:E.
  - exfalso. apply Hs. apply crosses_stop_hit. exact E.
  - destruct (if il then Qleb tp (bar_high b) else Qleb (bar_low b) tp) eqn:E'.
    + exfalso. apply Ht. apply crosses_target_hit. exact E'.
    + reflexivity.
Qed.

Lemma rr_nonneg (a b : Q) : (0 <= Qabs a / Qabs b)%Q.
Proof.
  unfold Qdiv. apply Qmult_le_0_compat.
  - apply Qabs_nonneg.
  - apply Qinv_le_0_compat. apply Qabs_nonneg.
Qed.

Lemma crosses_stop_dec (il : bool) (sl : Q) (b : PriceBar) :
  {crosses_stop il sl b} + {~ crosses_stop il sl b}.
Proof.
  destruct (if il then Qleb (bar_low b) sl else Qleb sl (bar_high b)) eqn:E.
  - left. now apply crosses_stop_hit.
  - right. intros H. apply crosses_stop_hit in H. congruence.
Defined.

Lemma crosses_target_dec (il : bool) (tp : Q) (b : PriceBar) :
  {crosses_target il tp b} + {~ crosses_target il tp b}.
Proof.
  destruct (if il then Qleb tp (bar_high b) else Qleb (bar_low b) tp) eqn:E.
  - left. now apply crosses_target_hit.
  - right. intros H. apply crosses_target_hit in H. congruence.
Defined.

Lemma check_bar_shape (il : bool) (e sl tp : Q) (b : PriceBar)
    (k : string) (ts : Timestamp) (px r : Q) :
  check_bar il e sl tp b = Some (k, ts, px, r) ->
  ts = bar_time b
  /\ ((k = "SL"%string /\ px = sl /\ r = (-1)%Q /\ crosses_stop il sl b)
      \/ (k = "TP"%string /\ px = tp
          /\ r = (Qabs (tp - e) / Qabs (sl - e))%Q /\ (0 <= r)%Q
          /\ crosses_target il tp b /\ ~ crosses_stop il sl b)).
Proof.
  destruct (crosses_stop_dec il sl b) as [Hs|Hs].
  - rewrite (check_bar_stop il e sl tp b Hs). intros H.
    split; [congruence|]. left.
    split; [congruence|]. split; [congruence|]. split; [congruence|exact Hs].
  - destruct (crosses_target_dec il tp b) as [Ht|Ht].
    + rewrite (check_bar_target il e sl tp b Hs Ht). intros H.
      assert (Hr : r = (Qabs (tp - e) / Qabs (sl - e))%Q) by congruence.
      split; [congruence|]. right.
      split; [congruence|]. split; [congruence|]. split; [exact Hr|].
      split; [rewrite Hr; apply rr_nonneg|]. split; assumption.
    + rewrite (check_bar_quiet il e sl tp b Hs Ht). discriminate.
Qed.

Lemma scan_bars_skip (il : bool) (e sl tp : Q) (pre rest : list PriceBar) :
  Forall (fun b => ~ crosses_stop il sl b /\ ~ crosses_target il tp b) pre ->
  scan_bars il e sl tp (pre ++ rest) = scan_bars il e sl tp rest.
Proof.
  induction 1 as [|b pre [Hs Ht] _ IH]; simpl; [reflexivity|].
  now rewrite (check_bar_quiet il e sl tp b Hs Ht).
Qed.

Lemma scan_bars_found (il : bool) (e sl tp : Q) (bars : list PriceBar)
    (res : TradeResult) :
  scan_bars il e sl tp bars = Some res ->
  exists b, b ∈ bars /\ check_bar il e sl tp b = Some res.
Proof.
  induction bars as [|b bars IH]; simpl; [discriminate|].
  destruct (check_bar il e sl tp b) as [r0|] eqn:E.
  - intros H. inversion H; subst. exists b. split; [left|exact E].
  - intros H. destruct (IH H) as (b' & Hin & Hb').
    exists b'. split; [now right|exact Hb'].
Qed.

(** The simulator returns [None] exactly when no scanned bar reaches a level. *)
Lemma scan_bars_none (il : bool) (e sl tp : Q) (bars : list PriceBar) :
  scan_bars il e sl tp bars = None
  <-> Forall (fun b => ~ crosses_stop il sl b /\ ~ crosses_target il tp b) bars.
Proof.
  induction bars as [|b bars IH]; simpl.
  - split; [constructor|reflexivity].
  - destruct (check_bar il e sl tp b) as [[[[k ts] px] r]|] eqn:E.
    + split; [discriminate|]. intros HF. inversion HF as [|? ? [Hs Ht] _]; subst.
      rewrite (check_bar_quiet il e sl tp b Hs Ht) in E. discriminate.
    + rewrite IH. split.
      * intros HF. constructor; [|exact HF]. split.
        -- intros Hs. rewrite (check_bar_stop il e sl tp b Hs) in E. discriminate.
        -- intros Ht. destruct (crosses_stop_dec il sl b) as [Hs|Hs].
           ++ rewrite (check_bar_stop il e sl tp b Hs) in E. discriminate.
           ++ rewrite (check_bar_target il e sl tp b Hs Ht) in E. discriminate.
      * intros HF. inversion HF; assumption.
Qed.

(** C4: at the first bar of the scan that reaches a level, a bar that
    reaches the stop -- also when it reaches the target as well -- is a stop
    exit at the stop price with R-multiple -1, and, the stop being away from
    the entry price, a bar that reaches only the target is a target exit at
    the target price with R-multiple |target - entry| / |stop - entry|,
    which is not negative; whatever the simulator returns is such a stop
    exit or such a target exit.  (With the stop at the entry price a target
    exit divides by zero in the source; nothing is said about the
    R-multiple there.) *)
Theorem simulate_trade_stop_first
    (price_data : list PriceBar) (etime : Timestamp) (entry : Q)
    (dir : string) (sl tp : Q) (max_bars : nat) :
  let il := is_long_dir dir in
  let result := _simulate_trade price_data etime entry dir sl tp max_bars in
  (forall (pre : list PriceBar) (bar : PriceBar) (post : list PriceBar),
      future_bars_of price_data etime max_bars = pre ++ bar :: post ->
      Forall (fun b => ~ crosses_stop il sl b /\ ~ crosses_target il tp b) pre ->
      (crosses_stop il sl bar /\ crosses_target il tp bar ->
         result = Some ("SL"%string, bar_time bar, sl, (-1)%Q))
      /\ (crosses_stop il sl bar ->
         result = Some ("SL"%string, bar_time bar, sl, (-1)%Q))
      /\ (~ crosses_stop il sl bar -> crosses_target il tp bar ->
         ~ (sl == entry)%Q ->
         result = Some ("TP"%string, bar_time bar, tp,
                        (Qabs (tp - entry) / Qabs (sl - entry))%Q)
         /\ (0 <= Qabs (tp - entry) / Qabs (sl - entry))%Q))
  /\ (forall (k : string) (ts : Timestamp) (px r : Q),
      result = Some (k, ts, px, r) ->
      (k = "SL"%string /\ px = sl /\ r = (-1)%Q)
      \/ (k = "TP"%string /\ px = tp
          /\ (~ (sl == entry)%Q ->
              r = (Qabs (tp - entry) / Qabs (sl - entry))%Q /\ (0 <= r)%Q))).
Proof.
  intros il result. unfold result, _simulate_trade. fold il. split.
  - intros pre bar post Hfut Hpre. rewrite Hfut.
    rewrite (scan_bars_skip il entry sl tp pre (bar :: post) Hpre). simpl.
    split; [|split].
    + intros [Hs _]. now rewrite (check_bar_stop il entry sl tp bar Hs).
    + intros Hs. now rewrite (check_bar_stop il entry sl tp bar Hs).
    + intros Hs Ht _. rewrite (check_bar_target il entry sl tp bar Hs Ht).
      split; [reflexivity|exact (rr_nonneg (tp - entry) (sl - entry))].
  - intros k ts px r H.
    destruct (scan_bars_found _ _ _ _ _ _ H) as (b & _ & Hb).
    destruct (check_bar_shape _ _ _ _ _ _ _ _ _ Hb)
      as (_ & [(-> & -> & -> & _)|(-> & -> & -> & Hr & _)]).
    + left. split; [reflexivity|]. split; reflexivity.
    + right. split; [reflexivity|]. split; [reflexivity|]. intros _.
      split; [reflexivity|exact Hr].
Qed.

(** A target exit with the stop away from the entry: entry 1000, stop 750,
    target 1500. *)
Lemma simulate_trade_stop_first_witness :
  _simulate_trade ex_prices (hours 14 + minutes 1) 1000 "LONG" 750 1500 MAX_BARS
  = Some ("TP"%string, hours 14 + minutes 2, 1500%Q,
          (Qabs (1500 - 1000) / Qabs (750 - 1000))%Q)
  /\ (0 <= Qabs (1500 - 1000) / Qabs (750 - 1000))%Q.
Proof.
  pose proof (simulate_trade_stop_first ex_prices (hours 14 + minutes 1) 1000
                "LONG" 750 1500 MAX_BARS) as H.
  cbv zeta in H. destruct H as [Hbar _].
  destruct (Hbar [] (mk_bar (hours 14 + minutes 2) 1000 1600 995 1500)
              (drop 2 ex_prices)) as (_ & _ & Htp).
  - vm_compute. reflexivity.
  - constructor.
  - apply Htp.
    + intros Hc. vm_compute in Hc. now apply Hc.
    + vm_compute. discriminate.
    + vm_compute. discriminate.
Defined.

(** Scenario C: one bar reaches both levels of a long trade. *)
Example simulate_trade_both_levels_in_one_bar :
  _simulate_trade ex_prices (hours 14 + minutes 1) 1000 "LONG" 995 1400 MAX_BARS
  = Some ("SL"%string, hours 14 + minutes 2, 995%Q, (-1)%Q).
Proof. vm_compute. reflexivity. Qed.

(** ** The engine: one signal *)

(** Every path through the loop body, with the gates passed on the way. *)
Lemma process_signal_paths (self : BacktestEngine) (price_data : list PriceBar)
    (context_data : gmap string ContextFrame) (st : EngineState) (sig : Signal) :
  let t := sig_timestamp sig in
  let st0 := count_signal st in
  let r := process_signal self price_data context_data st sig in
  (r = (CooldownBlocked, with_stats st0 (incr_cooldown_blocked (filter_stats st0)))
   /\ in_cooldown (last_trade_time st) t
        (timedelta_hours (cooldown_hours (config self))) = true)
  \/ (r = (SessionBlocked, with_stats st0 (incr_session_blocked (filter_stats st0)))
      /\ str_in (get_session t) (allowed_sessions (config self)) = false)
  \/ (r = (NoEntryBar, with_stats st0 (incr_no_entry_bar (filter_stats st0)))
      /\ first_bar_after price_data t = None)
  \/ (r = (NoContext, with_stats st0 (incr_no_context (filter_stats st0)))
      /\ forall g, load_context context_data t !! "garch"%string <> Some (Some g))
  \/ (r = (NotConfirmed, with_stats st0 (incr_not_confirmed (filter_stats st0)))
      /\ exists bar, first_bar_after price_data t = Some bar
         /\ rejected_by (confirmation self) sig
              (load_context context_data t) (bar_open bar) = true)
  \/ (exists bar g res,
        first_bar_after price_data t = Some bar
        /\ load_context context_data t !! "garch"%string = Some (Some g)
        /\ signal_simulation self price_data sig bar g = Some res
        /\ r = (Executed, record_trade st0 (signal_trade self st sig bar g res)))
  \/ (exists bar g,
        first_bar_after price_data t = Some bar
        /\ load_context context_data t !! "garch"%string = Some (Some g)
        /\ signal_simulation self price_data sig bar g = None
        /\ r = (Unresolved, st0)).
Proof.
  intros t st0 r. subst r. unfold process_signal. fold t. fold st0.
  change (last_trade_time st0) with (last_trade_time st).
  destruct (in_cooldown _ _ _) eqn:Ecd; [left; split; reflexivity|].
  right.
  destruct (str_in _ _) eqn:Ese; cbn [negb]; [|left; split; reflexivity].
  right.
  destruct (first_bar_after price_data t) as [bar|] eqn:Ebar;
    [|left; split; reflexivity].
  right.
  destruct (load_context context_data t !! "garch"%string) as [[g|]|] eqn:Ectx;
    [|left; split; [reflexivity|congruence]
     |left; split; [reflexivity|congruence]].
  right.
  destruct (rejected_by _ _ _ _) eqn:Erej.
  { left. split; [reflexivity|]. exists bar. split; [reflexivity|exact Erej]. }
  right.
  destruct (_simulate_trade _ _ _ _ _ _ _) as [res|] eqn:Esim.
  - left. exists bar, g, res. repeat split; assumption.
  - right. exists bar, g. repeat split; assumption.
Qed.

Lemma load_context_garch (context_data : gmap string ContextFrame)
    (t : Timestamp) (df : ContextFrame) :
  context_data !! "garch"%string = Some df ->
  load_context context_data t !! "garch"%string
  = Some (get_nearest_context df t).
Proof. intros H. unfold load_context. now rewrite lookup_fmap, H. Qed.

(** The [Unresolved] path is the path of a simulation without outcome. *)
Lemma unresolved_iff_no_outcome (self : BacktestEngine) (price_data : list PriceBar)
    (context_data : gmap string ContextFrame) (st : EngineState) (sig : Signal) :
  fst (process_signal self price_data context_data st sig) = Unresolved
  <-> exists bar g,
        in_cooldown (last_trade_time st) (sig_timestamp sig)
          (timedelta_hours (cooldown_hours (config self))) = false
        /\ str_in (get_session (sig_timestamp sig))
             (allowed_sessions (config self)) = true
        /\ first_bar_after price_data (sig_timestamp sig) = Some bar
        /\ load_context context_data (sig_timestamp sig) !! "garch"%string
           = Some (Some g)
        /\ rejected_by (confirmation self) sig
             (load_context context_data (sig_timestamp sig)) (bar_open bar) = false
        /\ signal_simulation self price_data sig bar g = None.
Proof.
  unfold process_signal, signal_simulation, signal_stops, signal_vol.
  change (last_trade_time (count_signal st)) with (last_trade_time st).
  destruct (in_cooldown _ _ _) eqn:Ecd.
  { split; [discriminate|]. intros (? & ? & ? & _). discriminate. }
  destruct (str_in _ _) eqn:Ese; cbn [negb].
  2:{ split; [discriminate|]. intros (? & ? & _ & ? & _). discriminate. }
  destruct (first_bar_after _ _) as [bar|] eqn:Ebar.
  2:{ split; [discriminate|]. intros (? & ? & _ & _ & ? & _). discriminate. }
  destruct (load_context _ _ !! _) as [[g|]|] eqn:Ectx.
  2,3: split; [discriminate|]; intros (? & ? & _ & _ & _ & ? & _); discriminate.
  destruct (rejected_by _ _ _ _) eqn:Erej.
  { split; [discriminate|].
    intros (b' & g' & _ & _ & Hb & _ & Hr & _). congruence. }
  destruct (_simulate_trade _ _ _ _ _ _ _) as [res|] eqn:Esim.
  - split; [discriminate|].
    intros (b' & g' & _ & _ & Hb & Hg & _ & Hs).
    assert (b' = bar) by congruence. assert (g' = g) by congruence. subst.
    congruence.
  - split; [|reflexivity]. intros _. exists bar, g. repeat split; assumption.
Qed.

(** C8: a signal that passes every gate and whose simulation returns no
    outcome appends no trade and no equity point, leaves the equity and
    [last_trade_time] as they were, and changes nothing but the
    [total_signals] counter. *)
Theorem unresolved_signal_changes_only_total
    (self : BacktestEngine) (price_data : list PriceBar)
    (context_data : gmap string ContextFrame) (st : EngineState) (sig : Signal)
    (bar : PriceBar) (g : gmap string Q) :
  in_cooldown (last_trade_time st) (sig_timestamp sig)
    (timedelta_hours (cooldown_hours (config self))) = false ->
  str_in (get_session (sig_timestamp sig)) (allowed_sessions (config self)) = true ->
  first_bar_after price_data (sig_timestamp sig) = Some bar ->
  load_context context_data (sig_timestamp sig) !! "garch"%string = Some (Some g) ->
  rejected_by (confirmation self) sig
    (load_context context_data (sig_timestamp sig)) (bar_open bar) = false ->
  _simulate_trade price_data (bar_time bar) (bar_open bar) (sig_direction sig)
    (fst (signal_stops self sig bar g)) (snd (signal_stops self sig bar g))
    MAX_BARS = None ->
  exists st',
    process_signal self price_data context_data st sig = (Unresolved, st')
    /\ trades st' = trades st
    /\ equity_curve st' = equity_curve st
    /\ cur_equity st' = cur_equity st
    /\ last_trade_time st' = last_trade_time st
    /\ filter_stats st' = incr_total_signals (filter_stats st).
Proof.
  intros Hcd Hse Hbar Hctx Hrej Hsim.
  exists (count_signal st). split; [|repeat split].
  unfold process_signal.
  change (last_trade_time (count_signal st)) with (last_trade_time st).
  rewrite Hcd, Hse. cbn [negb]. rewrite Hbar, Hctx, Hrej.
  unfold signal_stops, signal_vol in Hsim. rewrite Hsim. reflexivity.
Qed.

Lemma unresolved_signal_changes_only_total_witness :
  exists st',
    process_signal ex_engine ex_quiet_prices ex_context (init_state ex_config)
      (mk_signal (hours 14) "LONG") = (Unresolved, st')
    /\ trades st' = trades (init_state ex_config)
    /\ equity_curve st' = equity_curve (init_state ex_config)
    /\ cur_equity st' = cur_equity (init_state ex_config)
    /\ last_trade_time st' = last_trade_time (init_state ex_config)
    /\ filter_stats st' = incr_total_signals (filter_stats (init_state ex_config)).
Proof.
  apply (unresolved_signal_changes_only_total ex_engine ex_quiet_prices
           ex_context (init_state ex_config) (mk_signal (hours 14) "LONG")
           (mk_bar (hours 14 + minutes 1) 1000 1010 990 1000)
           {[ "vol"%string := (20 : Q) ]});
    vm_compute; reflexivity.
Defined.

(** A snapshot returned by [get_nearest_context] is a row of the frame. *)
Lemma get_nearest_context_row (rows : list (Timestamp * gmap string Q))
    (t : Timestamp) (g : gmap string Q) :
  get_nearest_context (Some rows) t = Some g ->
  exists row, In row rows /\ snd row = g.
Proof.
  unfold get_nearest_context. destruct (length rows =? 0)%nat; [discriminate|].
  cbv zeta.
  destruct (last (List.filter (fun row => fst row <=? t) rows)) as [row|] eqn:E;
    [|discriminate].
  intros H. injection H as H. exists row. split; [|exact H].
  apply last_Some in E as [pre E].
  assert (Hin : In row (List.filter (fun row => fst row <=? t) rows)).
  { rewrite E. apply in_or_app. right. now left. }
  now apply filter_In in Hin.
Qed.

(** C10: when the frame of the [garch] source has no [vol] column (none of
    its rows has a [vol] entry) and has a snapshot at or before the signal
    time, the signal is not rejected at the context gate.  A signal that
    passes the cooldown gate, the session gate, the entry-bar lookup and
    the confirmation oracle then runs the simulation with the stops computed
    from the volatility 30: when the simulation has an outcome the signal is
    executed and its trade records the volatility 30 and those stops, and
    when it has none the signal is unresolved. *)
Theorem missing_vol_defaults_to_30
    (self : BacktestEngine) (price_data : list PriceBar)
    (context_data : gmap string ContextFrame) (st : EngineState) (sig : Signal)
    (rows : list (Timestamp * gmap string Q)) (g : gmap string Q) :
  context_data !! "garch"%string = Some (Some rows) ->
  Forall (fun row => snd row !! "vol"%string = None) rows ->
  get_nearest_context (Some rows) (sig_timestamp sig) = Some g ->
  let t := sig_timestamp sig in
  let dir := sig_direction sig in
  let r := process_signal self price_data context_data st sig in
  let stops_at := fun price : Q =>
    rc_calculate_stops (risk_calculator self) price dir 30 in
  fst r <> NoContext
  /\ (forall bar : PriceBar,
      in_cooldown (last_trade_time st) t
        (timedelta_hours (cooldown_hours (config self))) = false ->
      str_in (get_session t) (allowed_sessions (config self)) = true ->
      first_bar_after price_data t = Some bar ->
      rejected_by (confirmation self) sig (load_context context_data t)
        (bar_open bar) = false ->
      r = match _simulate_trade price_data (bar_time bar) (bar_open bar) dir
                  (fst (stops_at (bar_open bar))) (snd (stops_at (bar_open bar)))
                  MAX_BARS with
          | Some res =>
              (Executed,
               record_trade (count_signal st)
                 (make_trade (config self) (cur_equity st) t (get_session t) dir
                    (bar_open bar) (bar_time bar)
                    (fst (stops_at (bar_open bar)))
                    (snd (stops_at (bar_open bar))) 30 res))
          | None => (Unresolved, count_signal st)
          end)
  /\ (fst r = Executed ->
      exists tr, trades (snd r) = trades st ++ [tr]
        /\ garch_vol tr = (30 : Q)
        /\ (sl_price tr, tp_price tr) = stops_at (entry_price tr))
  /\ (fst r = Unresolved ->
      exists bar, first_bar_after price_data t = Some bar
        /\ _simulate_trade price_data (bar_time bar) (bar_open bar)
             dir (fst (stops_at (bar_open bar)))
             (snd (stops_at (bar_open bar))) MAX_BARS = None).
Proof.
  intros Hcd Hcols Hnear t dir r stops_at.
  pose proof (load_context_garch context_data t (Some rows) Hcd) as Hctx.
  fold t in Hnear. rewrite Hnear in Hctx.
  assert (Hvol : g !! "vol"%string = None).
  { destruct (get_nearest_context_row rows t g Hnear) as (row & Hin & <-).
    exact (proj1 (List.Forall_forall _ rows) Hcols row Hin). }
  assert (Hv : signal_vol g = (30 : Q)).
  { unfold signal_vol. rewrite Hvol. reflexivity. }
  split; [|split].
  - destruct (process_signal_paths self price_data context_data st sig)
      as [[E _]|[[E _]|[[E _]|[[E Hno]|[[E _]|[(bar & g' & res & _ & _ & _ & E)
          |(bar & g' & _ & _ & _ & E)]]]]]];
      fold r in E; rewrite E; cbn [fst]; try discriminate.
    exfalso. exact (Hno g Hctx).
  - intros bar Hcool Hsess Hbar Hrej. subst r. unfold process_signal.
    fold t. fold dir.
    change (last_trade_time (count_signal st)) with (last_trade_time st).
    change (cur_equity (count_signal st)) with (cur_equity st).
    rewrite Hcool, Hsess. cbn [negb]. rewrite Hbar, Hctx, Hrej, Hvol.
    reflexivity.
  - destruct (process_signal_paths self price_data context_data st sig)
      as [[E _]|[[E _]|[[E _]|[[E Hno]|[[E _]|[(bar & g' & res & Hb & Hg & Hs & E)
          |(bar & g' & Hb & Hg & Hs & E)]]]]]];
      fold r in E; rewrite E; cbn [fst snd].
    1-3,5: split; discriminate.
    + exfalso. exact (Hno g Hctx).
    + assert (g' = g) by (fold t in Hg; congruence). subst g'.
      split; [|discriminate]. intros _.
      exists (signal_trade self st sig bar g res). split; [reflexivity|].
      unfold signal_trade, signal_stops, make_trade. rewrite Hv.
      destruct res as [[[xt xtm] xp] rm]. cbn.
      split; [reflexivity|]. unfold stops_at.
      now destruct (rc_calculate_stops _ _ _ _).
    + assert (g' = g) by (fold t in Hg; congruence). subst g'.
      split; [discriminate|]. intros _.
      exists bar. split; [exact Hb|].
      unfold signal_simulation, signal_stops in Hs. rewrite Hv in Hs. exact Hs.
Qed.

(** The first example signal over a volatility frame without a [vol]
    column: it is executed, at the stops of the volatility 30. *)
Lemma missing_vol_defaults_to_30_witness :
  exists tr : Trade,
    process_signal ex_engine ex_prices ex_context_no_vol
      (init_state ex_config) (mk_signal (hours 14) "LONG")
    = (Executed, record_trade (count_signal (init_state ex_config)) tr)
    /\ garch_vol tr = (30 : Q)
    /\ (sl_price tr, tp_price tr)
       = rc_calculate_stops (risk_calculator ex_engine) (entry_price tr) "LONG" 30.
Proof.
  pose proof (missing_vol_defaults_to_30 ex_engine ex_prices ex_context_no_vol
                (init_state ex_config) (mk_signal (hours 14) "LONG")
                [ (hours 1, ({[ "sigma"%string := (20 : Q) ]} : gmap string Q)) ]
                {[ "sigma"%string := (20 : Q) ]}) as H.
  cbv zeta in H. destruct H as (_ & Hrun & _).
  - vm_compute. reflexivity.
  - repeat constructor.
  - vm_compute. reflexivity.
  - specialize (Hrun (mk_bar (hours 14 + minutes 1) 1000 1010 990 1000)).
    rewrite Hrun by (vm_compute; reflexivity).
    match goal with
    | |- context [match ?s with Some _ => _ | None => _ end] =>
        let v := eval vm_compute in s in change s with v
    end.
    cbv beta iota.
    eexists. split; [reflexivity|].
    split; vm_compute; reflexivity.
Defined.

(** ** The engine: counters *)

Lemma count_outcome_cons (o a : Outcome) (os : list Outcome) :
  count_outcome o (a :: os) = (count_outcome o [a] + count_outcome o os)%nat.
Proof.
  unfold count_outcome. simpl. destruct (bool_decide (a = o)); reflexivity.
Qed.

Ltac eval_counts :=
  repeat match goal with
  | |- context [count_outcome ?o [?a]] =>
      let v := eval vm_compute in (count_outcome o [a]) in
      change (count_outcome o [a]) with v
  | |- context [count_outcome ?o []] =>
      change (count_outcome o []) with 0%nat
  end.

Lemma outcomes_partition (os : list Outcome) :
  length os
  = (count_outcome CooldownBlocked os + count_outcome SessionBlocked os
     + count_outcome NoEntryBar os + count_outcome NoContext os
     + count_outcome NotConfirmed os + count_outcome Executed os
     + count_outcome Unresolved os)%nat.
Proof.
  induction os as [|a os IH]; [reflexivity|].
  rewrite !(count_outcome_cons _ a os). simpl length. rewrite IH.
  destruct a; eval_counts; lia.
Qed.

(** What one turn of the loop does to the counters and to the trade list. *)
Lemma process_signal_counts (self : BacktestEngine) (price_data : list PriceBar)
    (context_data : gmap string ContextFrame) (st : EngineState) (sig : Signal) :
  let r := process_signal self price_data context_data st sig in
  let fs := filter_stats st in
  let fs' := filter_stats (snd r) in
  total_signals fs' = S (total_signals fs)
  /\ cooldown_blocked fs' = (cooldown_blocked fs + count_outcome CooldownBlocked [fst r])%nat
  /\ session_blocked fs' = (session_blocked fs + count_outcome SessionBlocked [fst r])%nat
  /\ no_entry_bar fs' = (no_entry_bar fs + count_outcome NoEntryBar [fst r])%nat
  /\ no_context fs' = (no_context fs + count_outcome NoContext [fst r])%nat
  /\ not_confirmed fs' = (not_confirmed fs + count_outcome NotConfirmed [fst r])%nat
  /\ trades_executed fs' = (trades_executed fs + count_outcome Executed [fst r])%nat
  /\ length (trades (snd r)) = (length (trades st) + count_outcome Executed [fst r])%nat.
Proof.
  intros r fs fs'. subst fs'.
  destruct (process_signal_paths self price_data context_data st sig)
    as [[E _]|[[E _]|[[E _]|[[E _]|[[E _]|[(bar & g & res & _ & _ & _ & E)
        |(bar & g & _ & _ & _ & E)]]]]]];
    fold r in E; rewrite E; cbn [fst snd];
    eval_counts; subst fs;
    cbn [filter_stats trades record_trade count_signal with_stats
         total_signals cooldown_blocked session_blocked no_entry_bar
         no_context not_confirmed trades_executed
         incr_total_signals incr_cooldown_blocked incr_session_blocked
         incr_no_entry_bar incr_no_context incr_not_confirmed
         incr_trades_executed];
    rewrite ?length_app; cbn [length]; repeat split; lia.
Qed.

Lemma run_loop_counts (self : BacktestEngine) (price_data : list PriceBar)
    (context_data : gmap string ContextFrame) (signals : list Signal) :
  forall st : EngineState,
    let r := run_loop self price_data context_data st signals in
    let fs := filter_stats st in
    let fs' := filter_stats (snd r) in
    length (fst r) = length signals
    /\ total_signals fs' = (total_signals fs + length signals)%nat
    /\ cooldown_blocked fs' = (cooldown_blocked fs + count_outcome CooldownBlocked (fst r))%nat
    /\ session_blocked fs' = (session_blocked fs + count_outcome SessionBlocked (fst r))%nat
    /\ no_entry_bar fs' = (no_entry_bar fs + count_outcome NoEntryBar (fst r))%nat
    /\ no_context fs' = (no_context fs + count_outcome NoContext (fst r))%nat
    /\ not_confirmed fs' = (not_confirmed fs + count_outcome NotConfirmed (fst r))%nat
    /\ trades_executed fs' = (trades_executed fs + count_outcome Executed (fst r))%nat
    /\ length (trades (snd r)) = (length (trades st) + count_outcome Executed (fst r))%nat.
Proof.
  induction signals as [|sig rest IH]; intros st.
  - cbn [run_loop fst snd length]. eval_counts. repeat split; lia.
  - cbn zeta. cbn [run_loop].
    pose proof (process_signal_counts self price_data context_data st sig) as Hs.
    cbn zeta in Hs.
    destruct (process_signal self price_data context_data st sig) as [o st1].
    cbn [fst snd] in Hs.
    specialize (IH st1). cbn zeta in IH.
    destruct (run_loop self price_data context_data st1 rest) as [os st2].
    cbn [fst snd] in IH |- *.
    rewrite !(count_outcome_cons _ o os). cbn [length].
    destruct Hs as (H1 & H2 & H3 & H4 & H5 & H6 & H7 & H8).
    destruct IH as (I0 & I1 & I2 & I3 & I4 & I5 & I6 & I7 & I8).
    repeat split; lia.
Qed.

(** C1: after a run the trade list is as long as [trades_executed] says,
    and [total_signals] is the sum of the five rejection counters, of
    [trades_executed] and of the number of signals whose simulation gave no
    outcome; every signal of the date window is counted once. *)
Theorem run_backtest_counters_add_up
    (self : BacktestEngine) (price_data : list PriceBar)
    (signals : list Signal) (context_data : gmap string ContextFrame) :
  let unresolved :=
    count_outcome Unresolved (fst (run_trace self price_data signals context_data)) in
  match run_backtest self price_data signals context_data with
  | (ts, _, fs) =>
      length ts = trades_executed fs
      /\ total_signals fs
         = (cooldown_blocked fs + session_blocked fs + no_entry_bar fs
            + no_context fs + not_confirmed fs
            + trades_executed fs + unresolved)%nat
      /\ total_signals fs = length (in_date_range (config self) signals)
  end.
Proof.
  intros unresolved. subst unresolved. unfold run_backtest, run_trace.
  pose proof (run_loop_counts self price_data context_data
                (in_date_range (config self) signals)
                (init_state (config self))) as H.
  cbn zeta in H.
  destruct (run_loop self price_data context_data (init_state (config self))
              (in_date_range (config self) signals)) as [os st'].
  cbn [fst snd] in H |- *.
  destruct H as (I0 & I1 & I2 & I3 & I4 & I5 & I6 & I7 & I8).
  pose proof (outcomes_partition os) as Hp.
  cbn in I1, I2, I3, I4, I5, I6, I7, I8.
  repeat split; lia.
Qed.

(** ** The engine: equity accounting *)

Lemma make_trade_fields (cfg : BacktestConfig) (cur : Q) (t : Timestamp)
    (sess dir : string) (price : Q) (etime : Timestamp) (sl tp vol : Q)
    (res : TradeResult) :
  let tr := make_trade cfg cur t sess dir price etime sl tp vol res in
  signal_time tr = t
  /\ pnl tr = (risk_per_trade cfg * r_multiple tr)%Q
  /\ equity tr = (cur + pnl tr)%Q.
Proof. destruct res as [[[xt xtm] xp] rm]. cbn. repeat split. Qed.

Lemma equity_before_snoc (initial : Q) (ts : list Trade) (tr : Trade) (i : nat) :
  (i <= length ts)%nat ->
  equity_before initial (ts ++ [tr]) i
  = if (i =? length ts)%nat then last_equity initial ts
    else equity_before initial ts i.
Proof.
  intros Hi. destruct i as [|j]; cbn [equity_before].
  - destruct ts as [|t0 ts]; reflexivity.
  - rewrite lookup_app_l by lia.
    destruct (Nat.eqb_spec (S j) (length ts)) as [E|_]; [|reflexivity].
    unfold last_equity. rewrite last_lookup, <- E. reflexivity.
Qed.

Lemma ledger_ok_init (cfg : BacktestConfig) : ledger_ok cfg (init_state cfg).
Proof.
  split; [|split]; try reflexivity.
  intros i t H. cbn in H. rewrite lookup_nil in H. discriminate.
Qed.

Lemma ledger_ok_frame (cfg : BacktestConfig) (st st' : EngineState) :
  ledger_ok cfg st ->
  trades st' = trades st -> equity_curve st' = equity_curve st ->
  cur_equity st' = cur_equity st ->
  ledger_ok cfg st'.
Proof. unfold ledger_ok. intros H -> -> ->. exact H. Qed.

(** What one turn of the loop does to the trade list, the equity curve,
    the running equity and [last_trade_time]. *)
Lemma process_signal_ledger (self : BacktestEngine) (price_data : list PriceBar)
    (context_data : gmap string ContextFrame) (st : EngineState) (sig : Signal) :
  let r := process_signal self price_data context_data st sig in
  (fst r = Executed ->
     exists tr,
       trades (snd r) = trades st ++ [tr]
       /\ equity_curve (snd r) = equity_curve st ++ [(sig_timestamp sig, equity tr)]
       /\ last_trade_time (snd r) = Some (sig_timestamp sig)
       /\ cur_equity (snd r) = equity tr
       /\ signal_time tr = sig_timestamp sig
       /\ pnl tr = (risk_per_trade (config self) * r_multiple tr)%Q
       /\ equity tr = (cur_equity st + pnl tr)%Q)
  /\ (fst r <> Executed ->
       trades (snd r) = trades st
       /\ equity_curve (snd r) = equity_curve st
       /\ last_trade_time (snd r) = last_trade_time st
       /\ cur_equity (snd r) = cur_equity st).
Proof.
  intros r.
  destruct (process_signal_paths self price_data context_data st sig)
    as [[E _]|[[E _]|[[E _]|[[E _]|[[E _]|[(bar & g & res & _ & _ & _ & E)
        |(bar & g & _ & _ & _ & E)]]]]]];
    fold r in E; rewrite E; cbn [fst snd].
  1-5,7: split; [discriminate|intros _; repeat split].
  split; [|congruence]. intros _.
  exists (signal_trade self st sig bar g res).
  destruct (make_trade_fields (config self) (cur_equity st) (sig_timestamp sig)
              (get_session (sig_timestamp sig)) (sig_direction sig)
              (bar_open bar) (bar_time bar)
              (fst (signal_stops self sig bar g)) (snd (signal_stops self sig bar g))
              (signal_vol g) res) as (Ht & Hp & He).
  fold (signal_trade self st sig bar g res) in Ht, Hp, He.
  unfold record_trade. cbn [trades equity_curve last_trade_time cur_equity].
  rewrite Ht. repeat split; assumption.
Qed.

Lemma process_signal_ledger_ok (self : BacktestEngine) (price_data : list PriceBar)
    (context_data : gmap string ContextFrame) (st : EngineState) (sig : Signal) :
  ledger_ok (config self) st ->
  ledger_ok (config self) (snd (process_signal self price_data context_data st sig)).
Proof.
  intros Hok.
  destruct (process_signal_ledger self price_data context_data st sig) as [Hex Hno].
  destruct (decide (fst (process_signal self price_data context_data st sig) = Executed))
    as [E|E].
  - destruct (Hex E) as (tr & Ht & Hc & _ & Hcur & Hsig & Hp & He).
    destruct Hok as (Hts & Hcur0 & Hcurve).
    split; [|split].
    + rewrite Ht. intros i t Hi.
      apply lookup_snoc_Some in Hi as [[Hlt Hi]|[-> <-]].
      * rewrite equity_before_snoc by lia.
        destruct (Nat.eqb_spec i (length (trades st))) as [E'|_]; [lia|].
        exact (Hts i t Hi).
      * rewrite equity_before_snoc by lia. rewrite Nat.eqb_refl.
        split; [exact Hp|]. rewrite <- Hcur0. exact He.
    + rewrite Hcur, Ht. unfold last_equity. rewrite last_snoc. reflexivity.
    + rewrite Hc, Ht, Hcurve. unfold curve_of. rewrite map_app.
      cbn [map]. rewrite Hsig. reflexivity.
  - destruct (Hno E) as (Ht & Hc & _ & Hcur).
    exact (ledger_ok_frame _ _ _ Hok Ht Hc Hcur).
Qed.

Lemma run_loop_ledger_ok (self : BacktestEngine) (price_data : list PriceBar)
    (context_data : gmap string ContextFrame) (signals : list Signal) :
  forall st : EngineState,
    ledger_ok (config self) st ->
    ledger_ok (config self) (snd (run_loop self price_data context_data st signals)).
Proof.
  induction signals as [|sig rest IH]; intros st Hok; [exact Hok|].
  cbn [run_loop].
  pose proof (process_signal_ledger_ok self price_data context_data st sig Hok) as H1.
  destruct (process_signal self price_data context_data st sig) as [o st1].
  cbn [snd] in H1. specialize (IH st1 H1).
  destruct (run_loop self price_data context_data st1 rest) as [os st2].
  exact IH.
Qed.

(** C5: in the trade list of a run every trade's pnl is the fixed risk
    amount times its R-multiple and its equity is the equity of the trade
    before it (the initial capital for the first) plus its pnl; an executed
    signal appends exactly one trade and one equity point and sets
    [last_trade_time] to the signal's timestamp, any other signal appends
    nothing. *)
Theorem executed_trades_chain_equity
    (self : BacktestEngine) (price_data : list PriceBar)
    (signals : list Signal) (context_data : gmap string ContextFrame) :
  let cfg := config self in
  match run_backtest self price_data signals context_data with
  | (ts, curve, _) =>
      (forall (i : nat) (t : Trade), ts !! i = Some t ->
         pnl t = (risk_per_trade cfg * r_multiple t)%Q
         /\ equity t = (equity_before (initial_capital cfg) ts i + pnl t)%Q)
      /\ curve = curve_of cfg ts
  end
  /\ forall (st : EngineState) (sig : Signal),
       let r := process_signal self price_data context_data st sig in
       (fst r = Executed ->
          exists tr,
            trades (snd r) = trades st ++ [tr]
            /\ equity_curve (snd r)
               = equity_curve st ++ [(sig_timestamp sig, equity tr)]
            /\ last_trade_time (snd r) = Some (sig_timestamp sig)
            /\ cur_equity (snd r) = equity tr
            /\ signal_time tr = sig_timestamp sig
            /\ pnl tr = (risk_per_trade cfg * r_multiple tr)%Q
            /\ equity tr = (cur_equity st + pnl tr)%Q)
       /\ (fst r <> Executed ->
            trades (snd r) = trades st
            /\ equity_curve (snd r) = equity_curve st
            /\ last_trade_time (snd r) = last_trade_time st
            /\ cur_equity (snd r) = cur_equity st).
Proof.
  intros cfg. split.
  - unfold run_backtest, run_trace.
    pose proof (run_loop_ledger_ok self price_data context_data
                  (in_date_range cfg signals) (init_state cfg)
                  (ledger_ok_init cfg)) as (Hts & _ & Hcurve).
    split; assumption.
  - intros st sig. apply process_signal_ledger.
Qed.

Example executed_trades_chain_equity_run :
  map equity (fst (fst (run_backtest ex_engine ex_prices ex_signals ex_context_no_vol)))
  = [(100 + 5 * (Qabs (1500 - 1000) / Qabs (750 - 1000)))%Q;
     (100 + 5 * (Qabs (1500 - 1000) / Qabs (750 - 1000)) + 5 * -1)%Q].
Proof. vm_compute. reflexivity. Qed.

(** ** Configurations the engine does not reject *)

Lemma in_date_range_empty (cfg : BacktestConfig) (signals : list Signal) :
  end_date cfg < start_date cfg -> in_date_range cfg signals = [].
Proof.
  intros H. unfold in_date_range.
  induction signals as [|sig rest IH]; [reflexivity|].
  cbn [List.filter]. rewrite IH.
  destruct (Z.leb_spec (start_date cfg) (sig_timestamp sig));
    destruct (Z.leb_spec (sig_timestamp sig) (end_date cfg));
    cbn [andb]; try reflexivity; lia.
Qed.

Lemma run_backtest_total_signals (self : BacktestEngine) (price_data : list PriceBar)
    (signals : list Signal) (context_data : gmap string ContextFrame) :
  total_signals (snd (run_backtest self price_data signals context_data))
  = length (in_date_range (config self) signals).
Proof.
  unfold run_backtest, run_trace. cbn [snd].
  pose proof (run_loop_counts self price_data context_data
                (in_date_range (config self) signals)
                (init_state (config self))) as H.
  cbn zeta in H. destruct H as (_ & H & _). rewrite H. reflexivity.
Qed.

Lemma signals_ascending_filter (f : Signal -> bool) (signals : list Signal) :
  signals_ascending signals -> signals_ascending (List.filter f signals).
Proof.
  unfold signals_ascending. induction 1 as [|sig rest Hs IH Hall];
    cbn [List.filter]; [constructor|].
  destruct (f sig); [|exact IH]. constructor; [exact IH|].
  apply List.Forall_forall. intros s Hin. apply List.filter_In in Hin as [Hin _].
  exact (proj1 (List.Forall_forall _ rest) Hall s Hin).
Qed.

(** Under a negative cooldown a signal that does not precede the last
    trade's signal passes the cooldown gate. *)
Lemma process_signal_negative_cooldown (self : BacktestEngine)
    (price_data : list PriceBar) (context_data : gmap string ContextFrame)
    (st : EngineState) (sig : Signal) :
  cooldown_hours (config self) < 0 ->
  (forall lt, last_trade_time st = Some lt -> lt <= sig_timestamp sig) ->
  let r := process_signal self price_data context_data st sig in
  cooldown_blocked (filter_stats (snd r)) = cooldown_blocked (filter_stats st)
  /\ (last_trade_time (snd r) = last_trade_time st
      \/ last_trade_time (snd r) = Some (sig_timestamp sig)).
Proof.
  intros Hneg Hlast r.
  destruct (process_signal_paths self price_data context_data st sig)
    as [[E Hcd]|[[E _]|[[E _]|[[E _]|[[E _]|[(bar & g & res & _ & _ & _ & E)
        |(bar & g & _ & _ & _ & E)]]]]]];
    fold r in E; rewrite E; cbn [snd].
  - exfalso. unfold in_cooldown in Hcd.
    destruct (last_trade_time st) as [lt|]; [|discriminate].
    specialize (Hlast lt eq_refl). apply Z.ltb_lt in Hcd.
    unfold timedelta_hours, NS_PER_HOUR in Hcd. lia.
  - split; [reflexivity|left; reflexivity].
  - split; [reflexivity|left; reflexivity].
  - split; [reflexivity|left; reflexivity].
  - split; [reflexivity|left; reflexivity].
  - destruct res as [[[k ts] px] rm]. split; [reflexivity|right; reflexivity].
  - split; [reflexivity|left; reflexivity].
Qed.

Lemma run_loop_negative_cooldown (self : BacktestEngine)
    (price_data : list PriceBar) (context_data : gmap string ContextFrame)
    (signals : list Signal) :
  cooldown_hours (config self) < 0 ->
  signals_ascending signals ->
  forall st : EngineState,
    (forall lt, last_trade_time st = Some lt ->
       Forall (fun s => lt <= sig_timestamp s) signals) ->
    cooldown_blocked (filter_stats (snd (run_loop self price_data context_data
                                            st signals)))
    = cooldown_blocked (filter_stats st).
Proof.
  intros Hneg Hasc. unfold signals_ascending in Hasc.
  induction Hasc as [|sig rest Hs IH Hall]; intros st Hlast; [reflexivity|].
  cbn [run_loop].
  destruct (process_signal_negative_cooldown self price_data context_data st sig
              Hneg) as [Hcount Htime].
  { intros lt Hlt. specialize (Hlast lt Hlt).
    now apply List.Forall_inv in Hlast. }
  destruct (process_signal self price_data context_data st sig) as [o st1].
  cbn [snd] in Hcount, Htime.
  specialize (IH st1).
  destruct (run_loop self price_data context_data st1 rest) as [os st2].
  cbn [snd] in IH |- *. rewrite IH; [exact Hcount|].
  intros lt Hlt. destruct Htime as [Htime|Htime]; rewrite Htime in Hlt.
  - specialize (Hlast lt Hlt). now apply List.Forall_inv_tail in Hlast.
  - injection Hlt as <-. exact Hall.
Qed.

(** C2, as the code has it: [run_backtest] checks neither the date window
    nor the cooldown.  Ahead of the loop, building
    [timedelta(hours=cooldown_hours)] raises [OverflowError] when the
    cooldown is outside the range of a [timedelta]; once it is built, the
    run goes on to its result.  With end_date before start_date the date
    mask keeps no signal: no signal is processed and the result is the empty
    trade list, the seed equity point and all-zero counters.  With a
    negative cooldown every signal of the date window is processed, and when
    the signals come in ascending time none of them is blocked by the
    cooldown gate. *)
Theorem run_backtest_has_no_configuration_check
    (self : BacktestEngine) (price_data : list PriceBar)
    (signals : list Signal) (context_data : gmap string ContextFrame) :
  let cfg := config self in
  let run := run_backtest_raising self price_data signals context_data in
  let result := run_backtest self price_data signals context_data in
  (timedelta_in_range (cooldown_hours cfg) = false -> run = inl OverflowError)
  /\ (timedelta_in_range (cooldown_hours cfg) = true ->
      run = inr result
      /\ (end_date cfg < start_date cfg ->
          fst (run_trace self price_data signals context_data) = []
          /\ result = ([], [(start_date cfg, initial_capital cfg)], zero_stats))
      /\ (cooldown_hours cfg < 0 ->
          total_signals (snd result) = length (in_date_range cfg signals)
          /\ (signals_ascending signals ->
              cooldown_blocked (snd result) = 0%nat))).
Proof.
  intros cfg run result. subst cfg run. unfold run_backtest_raising.
  split; [intros ->; reflexivity|]. intros ->.
  split; [reflexivity|]. split.
  - intros H. subst result. unfold run_backtest, run_trace.
    rewrite (in_date_range_empty (config self) signals H). split; reflexivity.
  - intros Hneg. split; [apply run_backtest_total_signals|].
    intros Hasc. subst result. unfold run_backtest, run_trace. cbn [snd].
    rewrite (run_loop_negative_cooldown self price_data context_data
               (in_date_range (config self) signals) Hneg).
    + reflexivity.
    + now apply signals_ascending_filter.
    + intros lt Hlt. discriminate.
Qed.

(** A run under the cooldown of -12 hours: it does not fail, both signals
    are processed and both trades are returned. *)
Lemma negative_cooldown_run_returns_trades :
  cooldown_hours ex_config_negative_cooldown < 0
  /\ exists ts curve fs,
       run_backtest_raising (engine_with ex_config_negative_cooldown)
         ex_prices ex_signals ex_context = inr (ts, curve, fs)
       /\ length ts = 2%nat
       /\ total_signals fs = 2%nat
       /\ trades_executed fs = 2%nat.
Proof.
  split; [reflexivity|].
  change (run_backtest_raising (engine_with ex_config_negative_cooldown)
            ex_prices ex_signals ex_context)
    with (inr (run_backtest (engine_with ex_config_negative_cooldown)
                 ex_prices ex_signals ex_context)
          : PyError + (list Trade * list (Timestamp * Q) * FilterStats)).
  destruct (run_backtest (engine_with ex_config_negative_cooldown)
              ex_prices ex_signals ex_context) as [[ts curve] fs] eqn:E.
  exists ts, curve, fs. split; [reflexivity|].
  vm_compute in E. injection E as <- <- <-. repeat split.
Qed.

(** The two example configurations: the end date before the start date,
    and the cooldown of -12 hours. *)
Lemma run_backtest_has_no_configuration_check_witness :
  run_backtest_raising (engine_with ex_config_end_before_start)
    ex_prices ex_signals ex_context
  = inr ([], [(hours 240, (100 : Q))], zero_stats)
  /\ cooldown_blocked (snd (run_backtest (engine_with ex_config_negative_cooldown)
                              ex_prices ex_signals ex_context)) = 0%nat.
Proof.
  split.
  - pose proof (run_backtest_has_no_configuration_check
                  (engine_with ex_config_end_before_start)
                  ex_prices ex_signals ex_context) as H.
    cbv zeta in H. destruct H as [_ H].
    destruct H as (Hrun & Hempty & _); [reflexivity|].
    destruct Hempty as [_ Hres]; [vm_compute; reflexivity|].
    rewrite Hrun, Hres. reflexivity.
  - pose proof (run_backtest_has_no_configuration_check
                  (engine_with ex_config_negative_cooldown)
                  ex_prices ex_signals ex_context) as H.
    cbv zeta in H. destruct H as [_ H].
    destruct H as (_ & _ & Hneg); [reflexivity|].
    destruct Hneg as [_ Hgate]; [vm_compute; reflexivity|].
    apply Hgate. repeat constructor; vm_compute; discriminate.
Defined.

(** ** Analytics: sums and class means *)

Lemma fold_left_Qplus (xs : list Q) (a : Q) :
  (fold_left Qplus xs a == a + Qsum xs)%Q.
Proof.
  unfold Qsum. revert a. induction xs as [|x xs IH]; intros a; cbn [fold_left].
  - ring.
  - rewrite (IH (a + x)%Q), (IH (0 + x)%Q). ring.
Qed.

Lemma Qsum_cons (x : Q) (xs : list Q) : (Qsum (x :: xs) == x + Qsum xs)%Q.
Proof.
  unfold Qsum at 1. cbn [fold_left]. rewrite fold_left_Qplus. ring.
Qed.

Lemma win_or_loss (r : Q) : Qltb 0 r = negb (Qleb r 0).
Proof. reflexivity. Qed.

Lemma wins_and_losses (rs : list Q) :
  (length (positives rs) + length (non_positives rs) = length rs)%nat.
Proof.
  unfold positives, non_positives.
  induction rs as [|r rs IH]; [reflexivity|].
  cbn [List.filter]. rewrite win_or_loss.
  destruct (Qleb r 0); cbn [negb length]; lia.
Qed.

Lemma negatives_sum_nonpos (rs : list Q) : (Qsum (negatives rs) <= 0)%Q.
Proof.
  unfold negatives. induction rs as [|r rs IH]; [discriminate|].
  cbn [List.filter]. destruct (Qltb r 0) eqn:E; [|exact IH].
  apply Qltb_true in E. rewrite Qsum_cons.
  apply Qle_trans with (0 + 0)%Q; [|discriminate].
  apply Qplus_le_compat; [apply Qlt_le_weak; exact E|exact IH].
Qed.

(** The gross loss is the sum of the absolute values over the losing class,
    scratch trades included. *)
Lemma gross_loss_over_non_positives (rs : list Q) :
  (gross_loss_of rs == Qsum (map Qabs (non_positives rs)))%Q.
Proof.
  unfold gross_loss_of. fold (negatives rs).
  rewrite (Qabs_neg _ (negatives_sum_nonpos rs)).
  unfold negatives, non_positives.
  induction rs as [|r rs IH]; [reflexivity|].
  cbn [List.filter].
  destruct (Qltb r 0) eqn:El; destruct (Qleb r 0) eqn:Ele.
  - apply Qltb_true in El. cbn [map]. rewrite !Qsum_cons, <- IH.
    rewrite (Qabs_neg r (Qlt_le_weak _ _ El)). ring.
  - apply Qltb_true in El. apply Qleb_false in Ele.
    exfalso. exact (Qlt_irrefl _ (Qlt_trans _ _ _ El Ele)).
  - apply Qltb_false in El. apply Qleb_true in Ele. cbn [map].
    rewrite Qsum_cons, <- IH. rewrite (Qabs_neg r Ele).
    assert (Hz : (r == 0)%Q) by (apply Qle_antisym; assumption).
    rewrite Hz. ring.
  - exact IH.
Qed.

Lemma no_scratch_same_class (rs : list Q) :
  Forall (fun r => ~ (r == 0)%Q) rs -> non_positives rs = negatives rs.
Proof.
  unfold non_positives, negatives.
  induction 1 as [|r rs Hr _ IH]; [reflexivity|].
  cbn [List.filter]. rewrite IH.
  destruct (Qltb r 0) eqn:El; destruct (Qleb r 0) eqn:Ele; try reflexivity.
  - apply Qltb_true in El. apply Qleb_false in Ele.
    exfalso. exact (Qlt_irrefl _ (Qlt_trans _ _ _ El Ele)).
  - apply Qltb_false in El. apply Qleb_true in Ele.
    exfalso. apply Hr. apply Qle_antisym; assumption.
Qed.

Lemma win_rate_of_spec (rs : list Q) :
  rs <> [] -> win_rate_of rs = spec_win_rate rs.
Proof. destruct rs; [congruence|reflexivity]. Qed.

Lemma avg_win_of_spec (rs : list Q) : avg_win_of rs = spec_avg_win rs.
Proof.
  unfold avg_win_of, spec_avg_win, class_mean, gross_profit_of, count_wins.
  fold (positives rs). destruct (positives rs); reflexivity.
Qed.

Lemma avg_loss_of_loss_class (rs : list Q) :
  (avg_loss_of rs == loss_class_avg rs)%Q.
Proof.
  unfold avg_loss_of, loss_class_avg, class_mean, count_wins.
  fold (positives rs).
  replace (length rs - length (positives rs))%nat
    with (length (non_positives rs)) by (pose proof (wins_and_losses rs); lia).
  pose proof (gross_loss_over_non_positives rs) as Hg.
  destruct (non_positives rs) as [|x xs] eqn:E; [reflexivity|].
  cbn [Nat.ltb Nat.leb length map]. cbn [map] in Hg.
  rewrite Hg. rewrite length_map. reflexivity.
Qed.

(** ** Analytics: expectancy and Sharpe ratio *)

Section AnalyticsProperties.

Variable np : NumPy.

Lemma calculate_metrics_fields (ts : list Trade) (cap : Q) :
  ts <> [] ->
  exists m, calculate_metrics np ts cap = Some m
    /\ m_total_trades m = length ts
    /\ m_win_rate m = win_rate_of (map r_multiple ts)
    /\ m_avg_win m = avg_win_of (map r_multiple ts)
    /\ m_avg_loss m = avg_loss_of (map r_multiple ts)
    /\ m_expectancy m = expectancy_of (map r_multiple ts)
    /\ m_sharpe_ratio m = sharpe_ratio_of np ts.
Proof.
  intros Hne. destruct ts as [|t ts]; [congruence|].
  unfold calculate_metrics.
  destruct (fold_left drawdown_step _ _) as [[pk dd] ddp].
  eexists. split; [reflexivity|]. cbn. repeat split.
Qed.

(** C3, as the code has it: for a non-empty trade list the expectancy is
    win_rate x avg_win_R - (1 - win_rate) x avg_loss_R, where win_rate is
    the share of trades with r_multiple > 0, avg_win_R the mean of the
    positive R-multiples and avg_loss_R the mean of the absolute values over
    every trade that is not a win (r_multiple <= 0, scratch trades
    included), each average 0 for an empty class; without scratch trades
    this is the mean over the strictly negative R-multiples. *)
Theorem expectancy_over_wins_and_non_wins (ts : list Trade) (cap : Q) :
  ts <> [] ->
  let rs := map r_multiple ts in
  exists m, calculate_metrics np ts cap = Some m
    /\ m_expectancy m
       = (m_win_rate m * m_avg_win m - (1 - m_win_rate m) * m_avg_loss m)%Q
    /\ m_win_rate m = spec_win_rate rs
    /\ m_avg_win m = spec_avg_win rs
    /\ (m_avg_loss m == loss_class_avg rs)%Q
    /\ (m_expectancy m
        == spec_win_rate rs * spec_avg_win rs
           - (1 - spec_win_rate rs) * loss_class_avg rs)%Q
    /\ (Forall (fun r => ~ (r == 0)%Q) rs ->
        (m_expectancy m == spec_expectancy rs)%Q).
Proof.
  intros Hne rs.
  destruct (calculate_metrics_fields ts cap Hne)
    as (m & Hm & _ & Hwr & Haw & Hal & Hex & _).
  assert (Hrs : rs <> []) by (subst rs; destruct ts; [congruence|discriminate]).
  exists m. split; [exact Hm|].
  fold rs in Hwr, Haw, Hal, Hex.
  split; [rewrite Hex, Hwr, Haw, Hal; reflexivity|].
  split; [rewrite Hwr; apply (win_rate_of_spec rs Hrs)|].
  split; [rewrite Haw; apply avg_win_of_spec|].
  split; [rewrite Hal; apply avg_loss_of_loss_class|].
  rewrite Hex.
  assert (Hexp : (expectancy_of rs
                  == spec_win_rate rs * spec_avg_win rs
                     - (1 - spec_win_rate rs) * loss_class_avg rs)%Q).
  { unfold expectancy_of.
    rewrite (win_rate_of_spec rs Hrs), (avg_win_of_spec rs).
    rewrite (avg_loss_of_loss_class rs). reflexivity. }
  split; [exact Hexp|].
  intros Hnz. rewrite Hexp. unfold spec_expectancy, loss_class_avg, spec_avg_loss.
  rewrite (no_scratch_same_class rs Hnz). reflexivity.
Qed.

(** C6: the Sharpe ratio is 0 for fewer than two trades.  For two or more
    trades in chronological order it is mean / std x sqrt(factor) when the
    standard deviation is positive, and 0 otherwise (so when it is 0), where
    mean is [np.mean] of the R-multiples, std is [np.std] of them with
    ddof = 1 (the divisor n - 1) and factor is
    trade_count / elapsed_days x 252 with the elapsed days between the first
    and the last signal floored at 1. *)
Theorem sharpe_ratio_annualized (ts : list Trade) (cap : Q) :
  chronological ts ->
  let rs := map r_multiple ts in
  let mean := np_mean np rs in
  let std := np_std np rs 1 in
  ((length ts < 2)%nat -> sharpe_ratio_of np ts = 0%Q)
  /\ ((2 <= length ts)%nat ->
      ((0 < std)%Q ->
         sharpe_ratio_of np ts
         = (mean / std * np_sqrt np (spec_annualization ts))%Q)
      /\ (~ (0 < std)%Q -> sharpe_ratio_of np ts = 0%Q))
  /\ trades_per_year ts = spec_annualization ts
  /\ (ts <> [] ->
      exists m, calculate_metrics np ts cap = Some m
        /\ m_sharpe_ratio m = sharpe_ratio_of np ts).
Proof.
  intros Hchron rs mean std.
  assert (Hfac : trades_per_year ts = spec_annualization ts).
  { unfold trades_per_year, spec_annualization, trading_days, elapsed_days.
    unfold chronological in Hchron.
    destruct (head ts) as [f|]; [|reflexivity].
    destruct (last ts) as [l|]; [|reflexivity].
    specialize (Hchron f l eq_refl eq_refl). cbv zeta.
    assert (Hd : 0 <= td_days (signal_time l - signal_time f)).
    { unfold td_days, NS_PER_DAY, NS_PER_HOUR. apply Z.div_pos; lia. }
    destruct (Z.eqb_spec (td_days (signal_time l - signal_time f)) 0) as [E|E].
    - rewrite E. reflexivity.
    - rewrite Z.max_r by lia. reflexivity. }
  split; [|split; [|split]].
  - intros Hlt. unfold sharpe_ratio_of. rewrite length_map.
    destruct (Nat.leb_spec 2 (length ts)); [lia|reflexivity].
  - intros Hge. unfold sharpe_ratio_of. rewrite length_map.
    destruct (Nat.leb_spec 2 (length ts)); [|lia].
    fold rs. fold std. fold mean. rewrite Hfac. split.
    + intros Hpos. apply Qltb_true in Hpos. rewrite Hpos. reflexivity.
    + intros Hnpos. destruct (Qltb 0 std) eqn:E; [|reflexivity].
      apply Qltb_true in E. contradiction.
  - exact Hfac.
  - intros Hne.
    destruct (calculate_metrics_fields ts cap Hne) as (m & Hm & _ & _ & _ & _ & _ & Hs).
    exists m. split; assumption.
Qed.

End AnalyticsProperties.

Lemma expectancy_over_wins_and_non_wins_witness :
  let rs := map r_multiple ex_trades_with_zero in
  exists m, calculate_metrics rational_numpy ex_trades_with_zero 100 = Some m
    /\ m_expectancy m
       = (m_win_rate m * m_avg_win m - (1 - m_win_rate m) * m_avg_loss m)%Q
    /\ m_win_rate m = spec_win_rate rs
    /\ m_avg_win m = spec_avg_win rs
    /\ (m_avg_loss m == loss_class_avg rs)%Q
    /\ (m_expectancy m
        == spec_win_rate rs * spec_avg_win rs
           - (1 - spec_win_rate rs) * loss_class_avg rs)%Q
    /\ (Forall (fun r => ~ (r == 0)%Q) rs ->
        (m_expectancy m == spec_expectancy rs)%Q).
Proof.
  apply (expectancy_over_wins_and_non_wins rational_numpy ex_trades_with_zero 100).
  discriminate.
Defined.

(** A scratch trade followed by a full stop: the code's expectancy is -1/2,
    the mean over the strictly negative R-multiples would make it -1. *)
Lemma expectancy_counts_scratch_trades_as_losses :
  exists m, calculate_metrics rational_numpy ex_trades_with_zero 100 = Some m
    /\ (m_expectancy m == -1 # 2)%Q
    /\ (spec_expectancy (map r_multiple ex_trades_with_zero) == -1)%Q
    /\ ~ (m_expectancy m == spec_expectancy (map r_multiple ex_trades_with_zero))%Q.
Proof.
  eexists. split; [vm_compute; reflexivity|].
  split; [reflexivity|]. split; [reflexivity|]. discriminate.
Qed.

(** Three trades over 21 days with R-multiples 3, -1 and 1: the mean is 1,
    the standard deviation 2, the factor 3 / 21 x 252 = 36, and the Sharpe
    ratio 1 / 2 x 6 = 3. *)
Lemma sharpe_ratio_annualized_witness :
  let rs := map r_multiple ex_trades_three_weeks in
  elapsed_days ex_trades_three_weeks = 21
  /\ sharpe_ratio_of rational_numpy ex_trades_three_weeks
     = (np_mean rational_numpy rs / np_std rational_numpy rs 1
        * np_sqrt rational_numpy (spec_annualization ex_trades_three_weeks))%Q
  /\ (sharpe_ratio_of rational_numpy ex_trades_three_weeks == 3)%Q.
Proof.
  pose proof (sharpe_ratio_annualized rational_numpy ex_trades_three_weeks 100)
    as H.
  cbv zeta in H. destruct H as (_ & Hsharpe & _).
  - intros f l Hf Hl. injection Hf as <-. injection Hl as <-. vm_compute.
    discriminate.
  - split; [reflexivity|].
    destruct Hsharpe as [Hpos _]; [cbn; lia|].
    rewrite Hpos by (vm_compute; reflexivity).
    split; [reflexivity|vm_compute; reflexivity].
Defined.

(** * Further properties of the code *)

(** ** DataLoader.get_nearest_context *)

Lemma filter_last_split {A : Type} (f : A -> bool) (l : list A) (x : A) :
  last (List.filter f l) = Some x ->
  exists pre post, l = pre ++ x :: post /\ f x = true
                   /\ Forall (fun y => f y = false) post.
Proof.
  induction l as [|a l IH] using rev_ind; [discriminate|].
  rewrite List.filter_app. cbn [List.filter].
  destruct (f a) eqn:E.
  - rewrite last_snoc. intros [= ->]. exists l, []. repeat split; [exact E|constructor].
  - rewrite app_nil_r. intros H. destruct (IH H) as (pre & post & -> & Hx & Hpost).
    exists pre, (post ++ [a]). split; [now rewrite <- app_assoc|].
    split; [exact Hx|]. apply Forall_app. split; [exact Hpost|].
    constructor; [exact E|constructor].
Qed.

Lemma filter_all_false {A : Type} (f : A -> bool) (l : list A) :
  List.filter f l = [] <-> Forall (fun y => f y = false) l.
Proof.
  induction l as [|a l IH]; cbn [List.filter].
  - split; [constructor|reflexivity].
  - destruct (f a) eqn:E.
    + split; [discriminate|]. intros H. inversion H; congruence.
    + rewrite IH. split; [now constructor|]. intros H. now inversion H.
Qed.

Lemma get_nearest_context_last (rows : list (Timestamp * gmap string Q))
    (t : Timestamp) :
  get_nearest_context (Some rows) t
  = snd <$> last (List.filter (fun row => fst row <=? t) rows).
Proof.
  unfold get_nearest_context. destruct rows as [|r rows]; [reflexivity|].
  cbn [length Nat.eqb].
  destruct (last (List.filter (fun row => fst row <=? t) (r :: rows))); reflexivity.
Qed.

(** X1: a snapshot returned for time [t] is a row of the frame whose index
    is at or before [t], and every row after it in the frame lies after
    [t]: nothing later than the query time is ever returned. *)
Theorem get_nearest_context_no_lookahead
    (rows : list (Timestamp * gmap string Q)) (t : Timestamp)
    (snap : gmap string Q) :
  get_nearest_context (Some rows) t = Some snap ->
  exists (pre : list (Timestamp * gmap string Q)) (ts : Timestamp)
         (post : list (Timestamp * gmap string Q)),
    rows = pre ++ (ts, snap) :: post
    /\ ts <= t
    /\ Forall (fun row => t < fst row) post.
Proof.
  rewrite get_nearest_context_last.
  destruct (last _) as [[ts s]|] eqn:E; [|discriminate].
  cbn. intros [= ->].
  destruct (filter_last_split _ _ _ E) as (pre & post & -> & Hle & Hpost).
  exists pre, ts, post. split; [reflexivity|]. cbn in Hle.
  split; [lia|].
  eapply Forall_impl; [exact Hpost|]. cbn. intros row Hrow. lia.
Qed.

Lemma get_nearest_context_no_lookahead_witness :
  exists (pre : list (Timestamp * gmap string Q)) (ts : Timestamp)
         (post : list (Timestamp * gmap string Q)),
    ex_frame = pre ++ (ts, ({[ "vol"%string := (30 : Q) ]} : gmap string Q)) :: post
    /\ ts <= hours 7
    /\ Forall (fun row => hours 7 < fst row) post.
Proof.
  apply (get_nearest_context_no_lookahead ex_frame (hours 7)).
  vm_compute. reflexivity.
Defined.

(** X2: no snapshot is returned exactly when the frame is missing or every
    one of its rows (none, for an empty frame) lies after the query time. *)
Theorem get_nearest_context_none (df : ContextFrame) (t : Timestamp) :
  get_nearest_context df t = None
  <-> df = None
      \/ exists rows, df = Some rows /\ Forall (fun row => t < fst row) rows.
Proof.
  destruct df as [rows|].
  - rewrite get_nearest_context_last. split.
    + intros H. right. exists rows. split; [reflexivity|].
      destruct (last _) as [x|] eqn:E; [discriminate|].
      apply last_None in E. apply filter_all_false in E.
      eapply Forall_impl; [exact E|]. cbn. intros row Hrow. lia.
    + intros [H|(rows' & [= <-] & H)]; [discriminate|].
      assert (E : List.filter (fun row => fst row <=? t) rows = []).
      { apply filter_all_false. eapply Forall_impl; [exact H|].
        cbn. intros row Hrow. lia. }
      rewrite E. reflexivity.
  - split; [intros _; now left|reflexivity].
Qed.

(** X3: the answer for time [t] depends only on the rows at or before [t]:
    two frames with the same such rows give the same snapshot, so rows
    that arrive later never change an earlier answer. *)
Theorem get_nearest_context_ignores_future
    (rows1 rows2 : list (Timestamp * gmap string Q)) (t : Timestamp) :
  List.filter (fun row => fst row <=? t) rows1
  = List.filter (fun row => fst row <=? t) rows2 ->
  get_nearest_context (Some rows1) t = get_nearest_context (Some rows2) t.
Proof. intros H. rewrite !get_nearest_context_last, H. reflexivity. Qed.

Lemma get_nearest_context_ignores_future_witness :
  get_nearest_context (Some ex_frame) (hours 7)
  = get_nearest_context (Some (take 2 ex_frame)) (hours 7).
Proof.
  apply (get_nearest_context_ignores_future ex_frame (take 2 ex_frame) (hours 7)).
  vm_compute. reflexivity.
Defined.

(** X4: on a frame in ascending index order the snapshot returned is the
    one with the greatest index at or before the query time. *)
Theorem get_nearest_context_greatest
    (rows : list (Timestamp * gmap string Q)) (t : Timestamp)
    (snap : gmap string Q) :
  ascending_index rows ->
  get_nearest_context (Some rows) t = Some snap ->
  exists ts : Timestamp,
    (ts, snap) ∈ rows /\ ts <= t
    /\ forall row, row ∈ rows -> fst row <= t -> fst row <= ts.
Proof.
  intros Hasc H.
  destruct (get_nearest_context_no_lookahead rows t snap H)
    as (pre & ts & post & -> & Hts & Hpost).
  exists ts. split; [set_solver|]. split; [exact Hts|].
  intros row Hin Hrow.
  apply elem_of_app in Hin as [Hin|Hin].
  - apply list_elem_of_lookup in Hin as [i Hi].
    assert (Hlt : (i < length pre)%nat) by (eapply lookup_lt_Some; exact Hi).
    apply (Hasc i (length pre) row (ts, snap)); [lia| |].
    + rewrite lookup_app_l by lia. exact Hi.
    + rewrite list_lookup_middle by reflexivity. reflexivity.
  - apply elem_of_cons in Hin as [->|Hin]; [cbn; lia|].
    rewrite Forall_forall in Hpost. specialize (Hpost row Hin). lia.
Qed.

Lemma get_nearest_context_greatest_witness :
  exists ts : Timestamp,
    (ts, ({[ "vol"%string := (30 : Q) ]} : gmap string Q)) ∈ ex_frame
    /\ ts <= hours 7
    /\ forall row, row ∈ ex_frame -> fst row <= hours 7 -> fst row <= ts.
Proof.
  apply (get_nearest_context_greatest ex_frame (hours 7)).
  - intros i j ri rj Hij Hi Hj.
    destruct i as [|[|[|i]]]; destruct j as [|[|[|j]]];
      cbn in Hi, Hj; try discriminate; try lia;
      injection Hi as <-; injection Hj as <-; vm_compute; discriminate.
  - vm_compute. reflexivity.
Defined.

(** ** BacktestEngine._simulate_trade *)

Lemma check_bar_none_quiet (il : bool) (e sl tp : Q) (b : PriceBar) :
  check_bar il e sl tp b = None -> quiet_bar il sl tp b.
Proof.
  intros H. unfold quiet_bar.
  destruct (crosses_stop_dec il sl b) as [Hs|Hs].
  - rewrite (check_bar_stop il e sl tp b Hs) in H. discriminate.
  - split; [exact Hs|]. intros Ht.
    rewrite (check_bar_target il e sl tp b Hs Ht) in H. discriminate.
Qed.

Lemma scan_bars_first (il : bool) (e sl tp : Q) (bars : list PriceBar)
    (res : TradeResult) :
  scan_bars il e sl tp bars = Some res ->
  exists pre bar post,
    bars = pre ++ bar :: post
    /\ Forall (quiet_bar il sl tp) pre
    /\ check_bar il e sl tp bar = Some res.
Proof.
  induction bars as [|b bars IH]; cbn [scan_bars]; [discriminate|].
  destruct (check_bar il e sl tp b) as [r0|] eqn:E.
  - intros [= ->]. exists [], b, bars. split; [reflexivity|]. split; [constructor|exact E].
  - intros H. destruct (IH H) as (pre & bar & post & -> & Hpre & Hbar).
    exists (b :: pre), bar, post. split; [reflexivity|].
    split; [|exact Hbar]. constructor; [|exact Hpre].
    exact (check_bar_none_quiet il e sl tp b E).
Qed.

Lemma scan_bars_app_some (il : bool) (e sl tp : Q) (bars more : list PriceBar)
    (res : TradeResult) :
  scan_bars il e sl tp bars = Some res ->
  scan_bars il e sl tp (bars ++ more) = Some res.
Proof.
  induction bars as [|b bars IH]; cbn [scan_bars app]; [discriminate|].
  destruct (check_bar il e sl tp b); [trivial|exact IH].
Qed.

Lemma future_bars_of_elem (price_data : list PriceBar) (etime : Timestamp)
    (n : nat) (b : PriceBar) :
  b ∈ future_bars_of price_data etime n -> b ∈ price_data /\ etime < bar_time b.
Proof.
  unfold future_bars_of. intros H. apply subseteq_take in H.
  apply list_elem_of_In, List.filter_In in H as [Hin Hlt].
  split; [now apply list_elem_of_In|lia].
Qed.

(** X5: an outcome of the simulator comes from the first bar of the
    lookahead window that reaches a level: every bar scanned before it
    reaches neither, the exit time is that bar's time, the bar is a bar
    of the price data strictly after the entry time, and it lies within
    the first [max_bars] bars after the entry. *)
Theorem simulate_trade_exits_at_first_crossing
    (price_data : list PriceBar) (etime : Timestamp) (entry : Q)
    (dir : string) (sl tp : Q) (max_bars : nat)
    (k : string) (ts : Timestamp) (px r : Q) :
  _simulate_trade price_data etime entry dir sl tp max_bars = Some (k, ts, px, r) ->
  exists (pre : list PriceBar) (bar : PriceBar) (post : list PriceBar),
    future_bars_of price_data etime max_bars = pre ++ bar :: post
    /\ Forall (quiet_bar (is_long_dir dir) sl tp) pre
    /\ (crosses_stop (is_long_dir dir) sl bar
        \/ crosses_target (is_long_dir dir) tp bar)
    /\ ts = bar_time bar
    /\ bar ∈ price_data
    /\ etime < ts
    /\ (length pre < max_bars)%nat.
Proof.
  unfold _simulate_trade. intros H.
  destruct (scan_bars_first _ _ _ _ _ _ H) as (pre & bar & post & Hfut & Hpre & Hbar).
  exists pre, bar, post. split; [exact Hfut|]. split; [exact Hpre|].
  destruct (check_bar_shape _ _ _ _ _ _ _ _ _ Hbar)
    as (Hts & [(_ & _ & _ & Hs)|(_ & _ & _ & _ & Ht & _)]).
  all: assert (Hin : bar ∈ future_bars_of price_data etime max_bars)
         by (rewrite Hfut; set_solver).
  all: destruct (future_bars_of_elem _ _ _ _ Hin) as [Hpd Hlt].
  all: assert (Hlen : (length pre < max_bars)%nat).
  1,3: pose proof (f_equal length Hfut) as Hl;
       unfold future_bars_of in Hl; rewrite length_take, length_app in Hl;
       cbn [length] in Hl; lia.
  - split; [now left|]. subst ts. repeat split; assumption.
  - split; [now right|]. subst ts. repeat split; assumption.
Qed.

Lemma simulate_trade_exits_at_first_crossing_witness :
  exists (pre : list PriceBar) (bar : PriceBar) (post : list PriceBar),
    future_bars_of ex_prices (hours 14 + minutes 1) MAX_BARS = pre ++ bar :: post
    /\ Forall (quiet_bar (is_long_dir "LONG") 750 1500) pre
    /\ (crosses_stop (is_long_dir "LONG") 750 bar
        \/ crosses_target (is_long_dir "LONG") 1500 bar)
    /\ hours 14 + minutes 2 = bar_time bar
    /\ bar ∈ ex_prices
    /\ hours 14 + minutes 1 < hours 14 + minutes 2
    /\ (length pre < MAX_BARS)%nat.
Proof.
  apply (simulate_trade_exits_at_first_crossing ex_prices (hours 14 + minutes 1)
           1000 "LONG" 750 1500 MAX_BARS "TP"
           (hours 14 + minutes 2) 1500
           (Qabs (1500 - 1000) / Qabs (750 - 1000))).
  vm_compute. reflexivity.
Defined.

(** X6: the simulator gives no outcome exactly when none of the first
    [max_bars] bars strictly after the entry time reaches the stop or the
    target; with a window of 0 bars it never gives one. *)
Theorem simulate_trade_none_iff_window_quiet
    (price_data : list PriceBar) (etime : Timestamp) (entry : Q)
    (dir : string) (sl tp : Q) (max_bars : nat) :
  (_simulate_trade price_data etime entry dir sl tp max_bars = None
   <-> Forall (quiet_bar (is_long_dir dir) sl tp)
         (take max_bars
            (List.filter (fun b => etime <? bar_time b) price_data)))
  /\ _simulate_trade price_data etime entry dir sl tp 0 = None.
Proof.
  split.
  - unfold _simulate_trade, future_bars_of. apply scan_bars_none.
  - reflexivity.
Qed.

(** X7: an outcome once resolved is final: price bars appended to the
    data and a longer lookahead window leave it as it is. *)
Theorem simulate_trade_outcome_is_final
    (price_data more : list PriceBar) (etime : Timestamp) (entry : Q)
    (dir : string) (sl tp : Q) (max_bars max_bars' : nat) (res : TradeResult) :
  _simulate_trade price_data etime entry dir sl tp max_bars = Some res ->
  (max_bars <= max_bars')%nat ->
  _simulate_trade (price_data ++ more) etime entry dir sl tp max_bars' = Some res.
Proof.
  unfold _simulate_trade, future_bars_of. intros H Hle.
  rewrite List.filter_app.
  set (fut := List.filter (fun b => etime <? bar_time b) price_data) in *.
  set (fut' := List.filter (fun b => etime <? bar_time b) more).
  rewrite <- (take_drop max_bars (take max_bars' (fut ++ fut'))).
  rewrite take_take, Nat.min_l by exact Hle.
  rewrite take_app, <- app_assoc.
  apply scan_bars_app_some. exact H.
Qed.

Lemma simulate_trade_outcome_is_final_witness :
  _simulate_trade (take 2 ex_prices ++ drop 2 ex_prices) (hours 14 + minutes 1)
    1000 "LONG" 750 1500 MAX_BARS
  = Some ("TP"%string, hours 14 + minutes 2, 1500%Q,
          (Qabs (1500 - 1000) / Qabs (750 - 1000))%Q).
Proof.
  apply (simulate_trade_outcome_is_final (take 2 ex_prices) (drop 2 ex_prices)
           (hours 14 + minutes 1) 1000 "LONG" 750 1500 5 MAX_BARS).
  - vm_compute. reflexivity.
  - vm_compute. lia.
Defined.

(** ** BacktestEngine.run_backtest: where trades come from *)

Lemma process_signal_executed (self : BacktestEngine) (price_data : list PriceBar)
    (context_data : gmap string ContextFrame) (st : EngineState) (sig : Signal) :
  fst (process_signal self price_data context_data st sig) = Executed ->
  exists bar g res,
    in_cooldown (last_trade_time st) (sig_timestamp sig)
      (timedelta_hours (cooldown_hours (config self))) = false
    /\ str_in (get_session (sig_timestamp sig))
         (allowed_sessions (config self)) = true
    /\ first_bar_after price_data (sig_timestamp sig) = Some bar
    /\ load_context context_data (sig_timestamp sig) !! "garch"%string
       = Some (Some g)
    /\ rejected_by (confirmation self) sig
         (load_context context_data (sig_timestamp sig)) (bar_open bar) = false
    /\ signal_simulation self price_data sig bar g = Some res
    /\ snd (process_signal self price_data context_data st sig)
       = record_trade (count_signal st) (signal_trade self st sig bar g res).
Proof.
  unfold process_signal, signal_simulation, signal_trade, signal_stops, signal_vol.
  change (last_trade_time (count_signal st)) with (last_trade_time st).
  change (cur_equity (count_signal st)) with (cur_equity st).
  destruct (in_cooldown _ _ _) eqn:Ecd; [discriminate|].
  destruct (str_in _ _) eqn:Ese; cbn [negb]; [|discriminate].
  destruct (first_bar_after _ _) as [bar|] eqn:Ebar; [|discriminate].
  destruct (load_context _ _ !! _) as [[g|]|] eqn:Ectx; [|discriminate|discriminate].
  destruct (rejected_by _ _ _ _) eqn:Erej; [discriminate|].
  destruct (_simulate_trade _ _ _ _ _ _ _) as [res|] eqn:Esim; [|discriminate].
  intros _. exists bar, g, res. cbn [snd]. repeat split; assumption.
Qed.

Lemma signal_trade_fields (self : BacktestEngine) (st : EngineState) (sig : Signal)
    (bar : PriceBar) (g : gmap string Q)
    (k : string) (ts : Timestamp) (px r : Q) :
  let tr := signal_trade self st sig bar g (k, ts, px, r) in
  signal_time tr = sig_timestamp sig
  /\ entry_time tr = bar_time bar
  /\ session tr = get_session (sig_timestamp sig)
  /\ direction tr = sig_direction sig
  /\ entry_price tr = bar_open bar
  /\ sl_price tr = fst (signal_stops self sig bar g)
  /\ tp_price tr = snd (signal_stops self sig bar g)
  /\ exit_type tr = k /\ exit_time tr = ts /\ exit_price tr = px
  /\ r_multiple tr = r
  /\ pnl tr = (risk_per_trade (config self) * r)%Q
  /\ garch_vol tr = signal_vol g.
Proof. cbn. repeat split. Qed.

(** An invariant of the loop body over the signals of the date window is
    an invariant of the run. *)
Lemma run_loop_invariant (self : BacktestEngine) (price_data : list PriceBar)
    (context_data : gmap string ContextFrame)
    (Inv : EngineState -> Prop) (Psig : Signal -> Prop) :
  (forall st sig, Psig sig -> Inv st ->
     Inv (snd (process_signal self price_data context_data st sig))) ->
  forall (signals : list Signal) (st : EngineState),
    Forall Psig signals -> Inv st ->
    Inv (snd (run_loop self price_data context_data st signals)).
Proof.
  intros Hstep. induction signals as [|sig rest IH]; intros st Hs Hinv; [exact Hinv|].
  cbn [run_loop]. inversion Hs as [|? ? Hsig Hrest]; subst.
  pose proof (Hstep st sig Hsig Hinv) as H1.
  destruct (process_signal self price_data context_data st sig) as [o st1].
  cbn [snd] in H1. specialize (IH st1 Hrest H1).
  destruct (run_loop self price_data context_data st1 rest) as [os st2].
  exact IH.
Qed.

Lemma in_date_range_in_window (cfg : BacktestConfig) (signals : list Signal) :
  Forall (in_window cfg) (in_date_range cfg signals).
Proof.
  apply Forall_forall. intros sig Hin.
  apply list_elem_of_In, List.filter_In in Hin as [_ H].
  apply andb_true_iff in H as [H1 H2]. unfold in_window. lia.
Qed.

Lemma run_backtest_invariant (self : BacktestEngine) (price_data : list PriceBar)
    (signals : list Signal) (context_data : gmap string ContextFrame)
    (Inv : EngineState -> Prop) :
  (forall st sig, in_window (config self) sig -> Inv st ->
     Inv (snd (process_signal self price_data context_data st sig))) ->
  Inv (init_state (config self)) ->
  Inv (snd (run_trace self price_data signals context_data)).
Proof.
  intros Hstep Hinit. unfold run_trace.
  apply (run_loop_invariant self price_data context_data Inv
           (in_window (config self)) Hstep); [|exact Hinit].
  apply in_date_range_in_window.
Qed.

Lemma run_backtest_trades (self : BacktestEngine) (price_data : list PriceBar)
    (signals : list Signal) (context_data : gmap string ContextFrame) :
  fst (fst (run_backtest self price_data signals context_data))
  = trades (snd (run_trace self price_data signals context_data)).
Proof. reflexivity. Qed.

Lemma run_trades_origin (self : BacktestEngine) (price_data : list PriceBar)
    (signals : list Signal) (context_data : gmap string ContextFrame) :
  Forall (trade_origin self price_data context_data)
    (fst (fst (run_backtest self price_data signals context_data))).
Proof.
  rewrite run_backtest_trades.
  apply (run_backtest_invariant self price_data signals context_data
           (fun st => Forall (trade_origin self price_data context_data) (trades st))).
  - intros st sig Hwin Hinv.
    destruct (process_signal_ledger self price_data context_data st sig) as [_ Hno].
    destruct (decide (fst (process_signal self price_data context_data st sig)
                      = Executed)) as [E|E].
    + destruct (process_signal_executed self price_data context_data st sig E)
        as (bar & g & res & _ & Hse & Hbar & Hctx & _ & Hsim & ->).
      cbn [record_trade trades count_signal with_stats].
      apply Forall_app. split; [exact Hinv|].
      constructor; [|constructor].
      exists st, sig, bar, g, res. repeat split; try assumption; apply Hwin.
    + destruct (Hno E) as (-> & _). exact Hinv.
  - constructor.
Qed.

Lemma first_bar_after_elem (price_data : list PriceBar) (t : Timestamp)
    (bar : PriceBar) :
  first_bar_after price_data t = Some bar -> bar ∈ price_data /\ t < bar_time bar.
Proof.
  unfold first_bar_after. intros H. apply head_Some_elem_of in H.
  apply list_elem_of_In, List.filter_In in H as [Hin Hlt].
  split; [now apply list_elem_of_In|lia].
Qed.

(** X8: every trade of a run respects the order of time: its entry bar is
    a bar of the price data strictly after the signal, entered at that
    bar's open, and its exit is at a bar of the price data strictly after
    the entry bar. *)
Theorem run_trades_follow_time
    (self : BacktestEngine) (price_data : list PriceBar)
    (signals : list Signal) (context_data : gmap string ContextFrame) :
  Forall (fun tr =>
            signal_time tr < entry_time tr
            /\ entry_time tr < exit_time tr
            /\ (exists bar, bar ∈ price_data /\ bar_time bar = entry_time tr
                            /\ bar_open bar = entry_price tr)
            /\ (exists bar, bar ∈ price_data /\ bar_time bar = exit_time tr))
    (fst (fst (run_backtest self price_data signals context_data))).
Proof.
  eapply Forall_impl; [apply run_trades_origin|].
  intros tr (st & sig & bar & g & [[[k ts] px] r] & _ & _ & Hbar & _ & Hsim & ->).
  destruct (signal_trade_fields self st sig bar g k ts px r)
    as (-> & -> & _ & _ & -> & _ & _ & _ & -> & _).
  destruct (first_bar_after_elem _ _ _ Hbar) as [Hin Hlt].
  unfold signal_simulation, _simulate_trade in Hsim.
  destruct (scan_bars_found _ _ _ _ _ _ Hsim) as (b & Hb & Hcheck).
  destruct (check_bar_shape _ _ _ _ _ _ _ _ _ Hcheck) as [-> _].
  destruct (future_bars_of_elem _ _ _ _ Hb) as [Hbin Hblt].
  split; [exact Hlt|]. split; [exact Hblt|]. split.
  - exists bar. repeat split. exact Hin.
  - exists b. split; [exact Hbin|reflexivity].
Qed.

(** X9: every trade of a run belongs to a signal of the date window and to
    an allowed session: its signal time lies between start_date and
    end_date, and its session is the session of that time and is on the
    allow-list. *)
Theorem run_trades_in_window_and_session
    (self : BacktestEngine) (price_data : list PriceBar)
    (signals : list Signal) (context_data : gmap string ContextFrame) :
  Forall (fun tr =>
            start_date (config self) <= signal_time tr <= end_date (config self)
            /\ session tr = get_session (signal_time tr)
            /\ session tr ∈ allowed_sessions (config self)
            /\ session tr ∈ session_names)
    (fst (fst (run_backtest self price_data signals context_data))).
Proof.
  eapply Forall_impl; [apply run_trades_origin|].
  intros tr (st & sig & bar & g & [[[k ts] px] r] & Hwin & Hse & _ & _ & _ & ->).
  destruct (signal_trade_fields self st sig bar g k ts px r)
    as (-> & _ & -> & _).
  split; [exact Hwin|]. split; [reflexivity|].
  split; [now apply str_in_true|].
  unfold get_session, session_names. generalize (ts_hour (sig_timestamp sig)) as h.
  intros h. session_cases h; set_solver.
Qed.

(** X10: every trade of a run is a stop exit at its stop price with
    R-multiple -1 and a loss of the fixed risk amount, or a target exit at
    its target price, whose R-multiple is |target - entry| / |stop - entry|
    and not negative when its stop differs from its entry price; and its
    stop and target are what the risk calculator returns for its entry
    price, direction and volatility. *)
Theorem run_trades_exit_at_their_levels
    (self : BacktestEngine) (price_data : list PriceBar)
    (signals : list Signal) (context_data : gmap string ContextFrame) :
  Forall (fun tr =>
            ((exit_type tr = "SL"%string /\ exit_price tr = sl_price tr
              /\ r_multiple tr = (-1)%Q
              /\ (pnl tr == - risk_per_trade (config self))%Q)
             \/ (exit_type tr = "TP"%string /\ exit_price tr = tp_price tr
                 /\ (~ (sl_price tr == entry_price tr)%Q ->
                     r_multiple tr
                     = (Qabs (tp_price tr - entry_price tr)
                        / Qabs (sl_price tr - entry_price tr))%Q
                     /\ (0 <= r_multiple tr)%Q)))
            /\ (sl_price tr, tp_price tr)
               = rc_calculate_stops (risk_calculator self) (entry_price tr)
                   (direction tr) (garch_vol tr))
    (fst (fst (run_backtest self price_data signals context_data))).
Proof.
  eapply Forall_impl; [apply run_trades_origin|].
  intros tr (st & sig & bar & g & [[[k ts] px] r] & _ & _ & _ & _ & Hsim & ->).
  destruct (signal_trade_fields self st sig bar g k ts px r)
    as (_ & _ & _ & -> & -> & -> & -> & -> & _ & -> & -> & -> & ->).
  unfold signal_simulation, _simulate_trade in Hsim.
  destruct (scan_bars_found _ _ _ _ _ _ Hsim) as (b & _ & Hcheck).
  destruct (check_bar_shape _ _ _ _ _ _ _ _ _ Hcheck)
    as (_ & [(-> & -> & -> & _)|(-> & -> & -> & Hr & _)]).
  - split; [|unfold signal_stops; now destruct (rc_calculate_stops _ _ _ _)].
    left. repeat split. ring.
  - split; [|unfold signal_stops; now destruct (rc_calculate_stops _ _ _ _)].
    right. split; [reflexivity|]. split; [reflexivity|]. intros _.
    split; [reflexivity|exact Hr].
Qed.

(** ** BacktestEngine.run_backtest: cooldown, equity and empty runs *)

Lemma spaced_by_snoc (delta : Z) (ts : list Trade) (tr : Trade) :
  spaced_by delta ts ->
  (forall prev, last ts = Some prev -> delta <= signal_time tr - signal_time prev) ->
  spaced_by delta (ts ++ [tr]).
Proof.
  intros Hsp Hlast i t1 t2 H1 H2.
  apply lookup_snoc_Some in H2 as [[Hlt H2]|[Hi <-]].
  - rewrite lookup_app_l in H1 by lia. exact (Hsp i t1 t2 H1 H2).
  - rewrite lookup_app_l in H1 by lia. apply Hlast.
    rewrite last_lookup, <- Hi. exact H1.
Qed.

(** X11: consecutive trades of a run are at least the cooldown apart,
    signal time to signal time; the time the cooldown is measured from is
    the signal time of the last trade. *)
Theorem run_trades_keep_cooldown
    (self : BacktestEngine) (price_data : list PriceBar)
    (signals : list Signal) (context_data : gmap string ContextFrame) :
  last_trade_time (snd (run_trace self price_data signals context_data))
  = signal_time <$> last (fst (fst (run_backtest self price_data signals context_data)))
  /\ spaced_by (timedelta_hours (cooldown_hours (config self)))
       (fst (fst (run_backtest self price_data signals context_data))).
Proof.
  rewrite run_backtest_trades.
  set (delta := timedelta_hours (cooldown_hours (config self))).
  apply (run_backtest_invariant self price_data signals context_data
           (fun st => last_trade_time st = signal_time <$> last (trades st)
                      /\ spaced_by delta (trades st))).
  - intros st sig _ [Hlast Hsp].
    destruct (process_signal_ledger self price_data context_data st sig) as [_ Hno].
    destruct (decide (fst (process_signal self price_data context_data st sig)
                      = Executed)) as [E|E].
    + destruct (process_signal_executed self price_data context_data st sig E)
        as (bar & g & [[[k ts] px] r] & Hcd & _ & _ & _ & _ & _ & ->).
      cbn [record_trade trades last_trade_time count_signal with_stats].
      destruct (signal_trade_fields self st sig bar g k ts px r) as (Hsig & _).
      split; [now rewrite last_snoc|].
      apply spaced_by_snoc; [exact Hsp|].
      intros prev Hprev. rewrite Hsig.
      rewrite Hlast, Hprev in Hcd. cbn in Hcd. fold delta in Hcd. lia.
    + destruct (Hno E) as (-> & _ & -> & _). split; assumption.
  - split; [reflexivity|]. intros i t1 t2 H. cbn in H. rewrite lookup_nil in H.
    discriminate.
Qed.

Lemma trades_ascending_snoc (ts : list Trade) (tr : Trade) :
  trades_ascending ts ->
  Forall (fun t => signal_time t <= signal_time tr) ts ->
  trades_ascending (ts ++ [tr]).
Proof.
  unfold trades_ascending. induction 1 as [|t l Hs IH Hall]; intros Hle.
  - cbn. repeat constructor.
  - apply Forall_cons in Hle as [Ht Hl]. cbn. constructor; [exact (IH Hl)|].
    apply Forall_app. split; [exact Hall|]. constructor; [exact Ht|constructor].
Qed.

Lemma trades_ascending_chronological (ts : list Trade) :
  trades_ascending ts -> chronological ts.
Proof.
  intros Hs f l Hf Hl. destruct ts as [|t rest]; [discriminate|].
  cbn in Hf. injection Hf as ->.
  apply StronglySorted_inv in Hs as [_ Hall].
  destruct rest as [|t' rest'] using rev_ind.
  - cbn in Hl. injection Hl as <-. lia.
  - rewrite app_comm_cons, last_snoc in Hl. injection Hl as <-.
    apply Forall_app in Hall as [_ Hall]. now apply Forall_cons in Hall as [H _].
Qed.

(** X27: under a cooldown that is not negative the trades of a run come in
    ascending signal time, whatever the order of the signal frame; so the
    signal of the last trade is not before the signal of the first. *)
Theorem run_trades_in_signal_order
    (self : BacktestEngine) (price_data : list PriceBar)
    (signals : list Signal) (context_data : gmap string ContextFrame) :
  0 <= cooldown_hours (config self) ->
  trades_ascending (fst (fst (run_backtest self price_data signals context_data)))
  /\ chronological (fst (fst (run_backtest self price_data signals context_data))).
Proof.
  intros Hcool. rewrite run_backtest_trades.
  cut (trades_ascending (trades (snd (run_trace self price_data signals context_data)))).
  { intros H. split; [exact H|now apply trades_ascending_chronological]. }
  apply (run_backtest_invariant self price_data signals context_data
           (fun st => trades_ascending (trades st)
                      /\ (forall lt, last_trade_time st = Some lt ->
                            Forall (fun t => signal_time t <= lt) (trades st))
                      /\ (last_trade_time st = None -> trades st = []))).
  - intros st sig _ (Hs & Hlast & Hnone).
    destruct (process_signal_ledger self price_data context_data st sig) as [Hex Hno].
    destruct (decide (fst (process_signal self price_data context_data st sig)
                      = Executed)) as [E|E].
    + destruct (process_signal_executed self price_data context_data st sig E)
        as (_ & _ & _ & Hcd & _).
      destruct (Hex E) as (tr & -> & _ & -> & _ & Hsig & _).
      assert (Hle : Forall (fun t => signal_time t <= sig_timestamp sig) (trades st)).
      { destruct (last_trade_time st) as [lt|] eqn:Elt.
        - cbn in Hcd. apply Z.ltb_ge in Hcd.
          unfold timedelta_hours, NS_PER_HOUR in Hcd.
          eapply Forall_impl; [exact (Hlast lt eq_refl)|].
          cbn. intros t Ht. lia.
        - rewrite (Hnone eq_refl). constructor. }
      split; [|split].
      * apply trades_ascending_snoc; [exact Hs|]. now rewrite Hsig.
      * intros lt Hlt. injection Hlt as <-. apply Forall_app.
        split; [exact Hle|]. constructor; [lia|constructor].
      * discriminate.
    + destruct (Hno E) as (-> & _ & -> & _). repeat split; assumption.
  - split; [constructor|]. split; [discriminate|reflexivity].
Qed.

Lemma run_loop_never (self : BacktestEngine) (price_data : list PriceBar)
    (context_data : gmap string ContextFrame) (o : Outcome) :
  (forall st sig, fst (process_signal self price_data context_data st sig) <> o) ->
  forall (signals : list Signal) (st : EngineState),
    count_outcome o (fst (run_loop self price_data context_data st signals)) = 0%nat.
Proof.
  intros Hnever. induction signals as [|sig rest IH]; intros st; [reflexivity|].
  cbn [run_loop]. specialize (Hnever st sig).
  destruct (process_signal self price_data context_data st sig) as [o1 st1].
  specialize (IH st1).
  destruct (run_loop self price_data context_data st1 rest) as [os st2].
  cbn [fst] in *. rewrite count_outcome_cons, IH.
  unfold count_outcome. cbn [List.filter].
  rewrite bool_decide_eq_false_2 by exact Hnever. reflexivity.
Qed.

(** X13: without a confirmation oracle no signal is ever counted as
    [not_confirmed]. *)
Theorem run_without_oracle_confirms_everything
    (self : BacktestEngine) (price_data : list PriceBar)
    (signals : list Signal) (context_data : gmap string ContextFrame) :
  confirmation self = None ->
  not_confirmed (snd (run_backtest self price_data signals context_data)) = 0%nat
  /\ count_outcome NotConfirmed
       (fst (run_trace self price_data signals context_data)) = 0%nat.
Proof.
  intros Hnone.
  assert (Hnever : forall st sig,
            fst (process_signal self price_data context_data st sig) <> NotConfirmed).
  { intros st sig.
    destruct (process_signal_paths self price_data context_data st sig)
      as [[E _]|[[E _]|[[E _]|[[E _]|[[E (bar & _ & Hrej)]|[(? & ? & ? & _ & _ & _ & E)
          |(? & ? & _ & _ & _ & E)]]]]]]; cbv zeta in E; rewrite E; cbn [fst];
      try discriminate.
    rewrite Hnone in Hrej. discriminate. }
  pose proof (run_loop_never self price_data context_data NotConfirmed Hnever
                (in_date_range (config self) signals) (init_state (config self))) as H0.
  pose proof (run_loop_counts self price_data context_data
                (in_date_range (config self) signals)
                (init_state (config self))) as Hc.
  cbn zeta in Hc. destruct Hc as (_ & _ & _ & _ & _ & _ & Hnc & _).
  unfold run_backtest, run_trace. cbn [snd]. split; [|exact H0].
  rewrite Hnc, H0. reflexivity.
Qed.

Lemma run_without_oracle_confirms_everything_witness :
  not_confirmed (snd (run_backtest ex_engine ex_prices ex_signals ex_context)) = 0%nat
  /\ count_outcome NotConfirmed
       (fst (run_trace ex_engine ex_prices ex_signals ex_context)) = 0%nat.
Proof.
  apply (run_without_oracle_confirms_everything ex_engine ex_prices ex_signals
           ex_context).
  reflexivity.
Defined.

(** X14: a run executes no trade - the trade list is empty, the equity
    curve keeps only its seed point and [trades_executed] is 0 - when
    there are no price bars, when the context has no [garch] source, or
    when the oracle rejects every signal. *)
Theorem run_without_data_executes_nothing
    (self : BacktestEngine) (price_data : list PriceBar)
    (signals : list Signal) (context_data : gmap string ContextFrame) :
  price_data = []
  \/ context_data !! "garch"%string = None
  \/ (exists o, confirmation self = Some o
                /\ forall sig ctx price, confirm_signal o sig ctx price = false) ->
  exists fs,
    run_backtest self price_data signals context_data
    = ([], [(start_date (config self), initial_capital (config self))], fs)
    /\ trades_executed fs = 0%nat.
Proof.
  intros Hcase.
  assert (Hnever : forall st sig,
            fst (process_signal self price_data context_data st sig) <> Executed).
  { intros st sig E.
    destruct (process_signal_executed self price_data context_data st sig E)
      as (bar & g & res & _ & _ & Hbar & Hctx & Hrej & _).
    destruct Hcase as [->|[Hg|(o & Ho & Hrejects)]].
    - discriminate.
    - unfold load_context in Hctx. rewrite lookup_fmap, Hg in Hctx. discriminate.
    - rewrite Ho in Hrej. cbn in Hrej. rewrite Hrejects in Hrej. discriminate. }
  pose proof (run_loop_never self price_data context_data Executed Hnever
                (in_date_range (config self) signals) (init_state (config self))) as H0.
  pose proof (run_loop_counts self price_data context_data
                (in_date_range (config self) signals)
                (init_state (config self))) as Hc.
  pose proof (run_loop_ledger_ok self price_data context_data
                (in_date_range (config self) signals) (init_state (config self))
                (ledger_ok_init (config self))) as (_ & _ & Hcurve).
  cbn zeta in Hc. destruct Hc as (_ & _ & _ & _ & _ & _ & _ & Hte & Hlen).
  rewrite H0 in Hte, Hlen. cbn in Hte, Hlen.
  unfold run_backtest, run_trace.
  set (st := snd (run_loop _ _ _ _ _)) in *.
  assert (Hts : trades st = []) by (destruct (trades st); [reflexivity|discriminate]).
  exists (filter_stats st). rewrite Hcurve, Hts. split; [reflexivity|exact Hte].
Qed.

Lemma run_without_data_executes_nothing_witness :
  exists fs,
    run_backtest ex_engine [] ex_signals ex_context
    = ([], [(start_date (config ex_engine), initial_capital (config ex_engine))], fs)
    /\ trades_executed fs = 0%nat.
Proof.
  apply (run_without_data_executes_nothing ex_engine [] ex_signals ex_context).
  left. reflexivity.
Defined.

(** ** GARCHRegimeRiskCalculator.calculate_stops: geometry *)

Lemma calculate_stops_distance (rc : GARCHRegimeRiskCalculator)
    (entry vol : Q) (dir : string) :
  exists d : Q,
    (d = sl_low rc \/ d = sl_med rc \/ d = sl_high rc)
    /\ calculate_stops rc entry dir vol
       = if is_long_dir dir
         then ((entry - d)%Q, (entry + d * rr_ratio rc)%Q)
         else ((entry + d)%Q, (entry - d * rr_ratio rc)%Q).
Proof.
  unfold calculate_stops, get_volatility_regime.
  destruct (Qltb vol (low_vol_threshold rc));
    [|destruct (Qltb vol (high_vol_threshold rc))]; cbn [String.eqb Ascii.eqb].
  - exists (sl_low rc). split; [now left|reflexivity].
  - exists (sl_med rc). split; [now right; left|reflexivity].
  - exists (sl_high rc). split; [now right; right|reflexivity].
Qed.

(** X15: with stop distances and a reward:risk ratio that are not
    negative, the levels lie on either side of the entry: for a long the
    stop is at or below it and the target at or above it, otherwise the
    other way round. *)
Theorem calculate_stops_bracket_entry
    (rc : GARCHRegimeRiskCalculator) (entry vol : Q) (dir : string) :
  (0 <= sl_low rc)%Q -> (0 <= sl_med rc)%Q -> (0 <= sl_high rc)%Q ->
  (0 <= rr_ratio rc)%Q ->
  let sl := fst (calculate_stops rc entry dir vol) in
  let tp := snd (calculate_stops rc entry dir vol) in
  (is_long_dir dir = true -> (sl <= entry)%Q /\ (entry <= tp)%Q)
  /\ (is_long_dir dir = false -> (tp <= entry)%Q /\ (entry <= sl)%Q).
Proof.
  intros Hl Hm Hh Hrr sl tp. subst sl tp.
  destruct (calculate_stops_distance rc entry vol dir) as (d & Hd & ->).
  assert (Hdpos : (0 <= d)%Q) by (destruct Hd as [-> | [-> | ->]]; assumption).
  assert (Hdrr : (0 <= d * rr_ratio rc)%Q) by (apply Qmult_le_0_compat; assumption).
  split.
  - intros ->. cbn [fst snd]. split; lra.
  - intros ->. cbn [fst snd]. split; lra.
Qed.

Lemma calculate_stops_bracket_entry_witness :
  let sl := fst (calculate_stops ex_garch 1000 "LONG" 20) in
  let tp := snd (calculate_stops ex_garch 1000 "LONG" 20) in
  (is_long_dir "LONG" = true -> (sl <= 1000)%Q /\ (1000 <= tp)%Q)
  /\ (is_long_dir "LONG" = false -> (tp <= 1000)%Q /\ (1000 <= sl)%Q).
Proof.
  apply (calculate_stops_bracket_entry ex_garch 1000 20 "LONG");
    vm_compute; discriminate.
Defined.

(** ** DataLoader.load_signals and BacktestConfig.__post_init__ *)

Lemma standardize_direction_cases (d : string) :
  (upper d = "BUY"%string /\ standardize_direction d = "LONG"%string)
  \/ (upper d = "SELL"%string /\ standardize_direction d = "SHORT"%string)
  \/ (upper d <> "BUY"%string /\ upper d <> "SELL"%string
      /\ standardize_direction d = upper d).
Proof.
  unfold standardize_direction.
  destruct (String.eqb_spec (upper d) "BUY") as [E|E]; [left; now split|].
  destruct (String.eqb_spec (upper d) "SELL") as [E'|E']; [right; left; now split|].
  right; right. repeat split; assumption.
Qed.

(** X17: the loader's direction column: BUY and LONG in any letter case
    become LONG, SELL and SHORT become SHORT; cleaning a direction twice
    changes nothing more; and the risk calculator and the simulator read a
    cleaned direction exactly as they read the raw one. *)
Theorem standardize_direction_keeps_side (d : string) :
  (upper d ∈ ["LONG"; "BUY"]%string -> standardize_direction d = "LONG"%string)
  /\ (upper d ∈ ["SHORT"; "SELL"]%string -> standardize_direction d = "SHORT"%string)
  /\ standardize_direction (standardize_direction d) = standardize_direction d
  /\ is_long_dir (standardize_direction d) = is_long_dir d
  /\ (forall rc entry vol,
        calculate_stops rc entry (standardize_direction d) vol
        = calculate_stops rc entry d vol)
  /\ (forall price_data etime entry sl tp n,
        _simulate_trade price_data etime entry (standardize_direction d) sl tp n
        = _simulate_trade price_data etime entry d sl tp n).
Proof.
  assert (Hlong : is_long_dir (standardize_direction d) = is_long_dir d).
  { unfold is_long_dir.
    destruct (standardize_direction_cases d) as [[E ->]|[[E ->]|(_ & _ & ->)]].
    - rewrite E. reflexivity.
    - rewrite E. reflexivity.
    - now rewrite upper_idemp. }
  split; [|split; [|split; [|split; [exact Hlong|split]]]].
  - intros H. apply list_elem_of_In in H. cbn in H.
    destruct (standardize_direction_cases d) as [[E ->]|[[E ->]|(Hb & Hs & ->)]];
      [reflexivity| |].
    + rewrite E in H. destruct H as [H|[H|[]]]; discriminate.
    + destruct H as [H|[H|[]]]; congruence.
  - intros H. apply list_elem_of_In in H. cbn in H.
    destruct (standardize_direction_cases d) as [[E ->]|[[E ->]|(Hb & Hs & ->)]];
      [|reflexivity|].
    + rewrite E in H. destruct H as [H|[H|[]]]; discriminate.
    + destruct H as [H|[H|[]]]; congruence.
  - destruct (standardize_direction_cases d) as [[E ->]|[[E ->]|(Hb & Hs & ->)]];
      [reflexivity|reflexivity|].
    unfold standardize_direction. rewrite upper_idemp.
    destruct (String.eqb_spec (upper d) "BUY"); [contradiction|].
    destruct (String.eqb_spec (upper d) "SELL"); [contradiction|reflexivity].
  - intros rc entry vol. unfold calculate_stops. rewrite Hlong. reflexivity.
  - intros price_data etime entry sl tp n. unfold _simulate_trade.
    rewrite Hlong. reflexivity.
Qed.

(** X18: with the allow-list that [__post_init__] supplies when none is
    given, a signal passes the session gate exactly when its UTC hour lies
    in [8, 22); a given allow-list is kept as it is. *)
Theorem default_sessions_trade_from_8_to_22 (t : Timestamp) (l : list string) :
  (str_in (get_session t) (post_init_sessions None) = true <-> 8 <= ts_hour t < 22)
  /\ post_init_sessions (Some l) = l.
Proof.
  split; [|reflexivity].
  rewrite str_in_true, list_elem_of_In. unfold get_session, post_init_sessions.
  generalize (ts_hour t) as h. intros h.
  session_cases h; cbn [In]; split; intros Hx; try lia;
    try (destruct Hx as [Hx|[Hx|[]]]; discriminate); auto.
Qed.

(** ** PerformanceAnalytics.calculate_metrics: totals and rates *)

Lemma Qofnat_add (a b : nat) : (Qofnat (a + b) == Qofnat a + Qofnat b)%Q.
Proof. unfold Qofnat. rewrite Nat2Z.inj_add, inject_Z_plus. reflexivity. Qed.

Lemma Qofnat_pos (n : nat) : (0 < n)%nat -> (0 < Qofnat n)%Q.
Proof. intros H. unfold Qofnat, Qlt. cbn. lia. Qed.

Lemma Qofnat_nonneg (n : nat) : (0 <= Qofnat n)%Q.
Proof. unfold Qofnat, Qle. cbn. lia. Qed.

Lemma gross_loss_is_minus_negatives (rs : list Q) :
  (gross_loss_of rs == - Qsum (negatives rs))%Q.
Proof.
  unfold gross_loss_of. fold (negatives rs).
  apply Qabs_neg. apply negatives_sum_nonpos.
Qed.

Lemma negatives_sum_negative (rs : list Q) :
  negatives rs <> [] -> (Qsum (negatives rs) < 0)%Q.
Proof.
  unfold negatives. induction rs as [|r rs IH]; [cbn [List.filter]; congruence|].
  cbn [List.filter]. destruct (Qltb r 0) eqn:E; [|exact IH].
  intros _. apply Qltb_true in E. rewrite Qsum_cons.
  pose proof (negatives_sum_nonpos rs) as H. unfold negatives in H. lra.
Qed.

Lemma negatives_nil_iff (rs : list Q) :
  negatives rs = [] <-> Forall (fun r => (0 <= r)%Q) rs.
Proof.
  unfold negatives. rewrite filter_all_false.
  split; intros H; (eapply Forall_impl; [exact H|]); cbn; intros r Hr.
  - now apply Qltb_false.
  - now apply Qltb_false.
Qed.

Lemma py_max_ge_l (a b : Q) : (a <= py_max a b)%Q.
Proof.
  unfold py_max. destruct (Qltb a b) eqn:E; [|apply Qle_refl].
  apply Qltb_true in E. lra.
Qed.

Lemma py_max_ge_r (a b : Q) : (b <= py_max a b)%Q.
Proof.
  unfold py_max. destruct (Qltb a b) eqn:E; [apply Qle_refl|].
  now apply Qltb_false in E.
Qed.

Lemma py_max_le (a b c : Q) : (a <= c)%Q -> (b <= c)%Q -> (py_max a b <= c)%Q.
Proof. intros Ha Hb. unfold py_max. now destruct (Qltb a b). Qed.

(** One turn of the drawdown loop: the peak covers the old peak and the
    new equity, and the maxima cover the old maxima and the new fall. *)
Lemma drawdown_step_bounds (pk dd ddp e : Q) :
  match drawdown_step (pk, dd, ddp) e with
  | (pk', dd', ddp') =>
      (pk <= pk')%Q /\ (e <= pk')%Q
      /\ (dd <= dd')%Q /\ (pk' - e <= dd')%Q
      /\ (ddp <= ddp')%Q
      /\ ((0 <= e)%Q -> (ddp <= 1)%Q -> (ddp' <= 1)%Q)
  end.
Proof.
  unfold drawdown_step.
  set (pk' := if Qltb pk e then e else pk).
  assert (Hpk : (pk <= pk')%Q /\ (e <= pk')%Q).
  { subst pk'. destruct (Qltb pk e) eqn:E.
    - apply Qltb_true in E. split; lra.
    - apply Qltb_false in E. split; lra. }
  destruct Hpk as [Hpk He].
  split; [exact Hpk|]. split; [exact He|].
  split; [apply py_max_ge_l|]. split; [apply py_max_ge_r|].
  split; [apply py_max_ge_l|].
  intros He0 Hddp. apply py_max_le; [exact Hddp|].
  destruct (Qltb 0 pk') eqn:E; [|lra].
  apply Qltb_true in E. apply Qle_shift_div_r; [exact E|lra].
Qed.

Lemma drawdown_fold_bounds (eqs : list Q) :
  forall pk dd ddp : Q,
    match fold_left drawdown_step eqs (pk, dd, ddp) with
    | (pk', dd', ddp') =>
        (pk <= pk')%Q /\ (dd <= dd')%Q /\ (ddp <= ddp')%Q
        /\ (forall b, b ∈ eqs -> (pk - b <= dd')%Q)
        /\ (forall (i j : nat) (a b : Q), (i < j)%nat ->
              eqs !! i = Some a -> eqs !! j = Some b -> (a - b <= dd')%Q)
        /\ (Forall (fun e => (0 <= e)%Q) eqs -> (ddp <= 1)%Q -> (ddp' <= 1)%Q)
    end.
Proof.
  induction eqs as [|e rest IH]; intros pk dd ddp; cbn [fold_left].
  - split; [lra|]. split; [lra|]. split; [lra|].
    split; [intros b Hb; inversion Hb|].
    split; [intros i j a b _ Hi; rewrite lookup_nil in Hi; discriminate|].
    intros _ H. exact H.
  - pose proof (drawdown_step_bounds pk dd ddp e) as Hstep.
    destruct (drawdown_step (pk, dd, ddp) e) as [[pk1 dd1] ddp1].
    destruct Hstep as (Hpk & He & Hdd & Hfall & Hddp & Hone).
    specialize (IH pk1 dd1 ddp1).
    destruct (fold_left drawdown_step rest (pk1, dd1, ddp1)) as [[pk' dd'] ddp'].
    destruct IH as (Ipk & Idd & Iddp & Ifall & Ipair & Ione).
    split; [lra|]. split; [lra|]. split; [lra|].
    split; [|split].
    + intros b Hb. apply elem_of_cons in Hb as [->|Hb]; [lra|].
      specialize (Ifall b Hb). lra.
    + intros i j a b Hij Hi Hj. destruct j as [|j]; [lia|]. cbn in Hj.
      destruct i as [|i].
      * cbn in Hi. injection Hi as <-.
        assert (Hb : b ∈ rest) by (apply list_elem_of_lookup; eauto).
        specialize (Ifall b Hb). lra.
      * cbn in Hi. apply (Ipair i j a b); [lia|exact Hi|exact Hj].
    + intros Hall H1. inversion Hall as [|? ? He0 Hrest]; subst.
      apply (Ione Hrest). apply (Hone He0 H1).
Qed.

Section MetricsProperties.

Variable np : NumPy.

Lemma calculate_metrics_more (ts : list Trade) (cap : Q) :
  ts <> [] ->
  exists m, calculate_metrics np ts cap = Some m
    /\ m_total_trades m = length ts
    /\ m_total_r m = Qsum (map r_multiple ts)
    /\ m_avg_r_per_trade m = (Qsum (map r_multiple ts) / Qofnat (length ts))%Q
    /\ m_win_rate m = win_rate_of (map r_multiple ts)
    /\ m_expectancy m = expectancy_of (map r_multiple ts)
    /\ m_profit_factor m
       = (if Qltb 0 (gross_loss_of (map r_multiple ts))
          then Some (gross_profit_of (map r_multiple ts)
                     / gross_loss_of (map r_multiple ts))%Q
          else None)
    /\ m_max_drawdown m = snd (fst (drawdown_scan cap (map equity ts)))
    /\ m_max_drawdown_pct m = (snd (drawdown_scan cap (map equity ts)) * 100)%Q
    /\ m_final_equity m = last_equity cap ts.
Proof.
  intros Hne. destruct ts as [|t ts]; [congruence|].
  unfold calculate_metrics, drawdown_scan.
  destruct (fold_left drawdown_step _ _) as [[pk dd] ddp].
  eexists. split; [reflexivity|]. cbn [m_total_trades m_total_r m_avg_r_per_trade
    m_win_rate m_expectancy m_profit_factor m_max_drawdown m_max_drawdown_pct
    m_final_equity fst snd].
  repeat split.
  unfold last_equity. generalize (t :: ts) as l. intros l.
  induction l as [|x l IH] using rev_ind; [reflexivity|].
  rewrite map_app. cbn [map]. rewrite !last_snoc. reflexivity.
Qed.

(** X20: the win rate lies between 0 and 1. *)
Theorem win_rate_is_a_rate (ts : list Trade) (cap : Q) :
  ts <> [] ->
  exists m, calculate_metrics np ts cap = Some m
    /\ (0 <= m_win_rate m)%Q /\ (m_win_rate m <= 1)%Q.
Proof.
  intros Hne.
  destruct (calculate_metrics_more ts cap Hne)
    as (m & Hm & _ & _ & _ & Hwr & _).
  exists m. split; [exact Hm|].
  assert (Hrs : map r_multiple ts <> []) by (destruct ts; [congruence|discriminate]).
  rewrite Hwr, (win_rate_of_spec _ Hrs). unfold spec_win_rate.
  set (rs := map r_multiple ts) in *.
  assert (Hn : (0 < Qofnat (length rs))%Q).
  { apply Qofnat_pos. destruct rs; [congruence|cbn; lia]. }
  split.
  - apply Qle_shift_div_l; [exact Hn|]. pose proof (Qofnat_nonneg (length (positives rs))). lra.
  - apply Qle_shift_div_r; [exact Hn|].
    pose proof (wins_and_losses rs) as Hwl. rewrite <- Hwl, Qofnat_add.
    pose proof (Qofnat_nonneg (length (non_positives rs))). lra.
Qed.

(** X21: the profit factor is infinite exactly when no trade has a negative
    R-multiple; otherwise it is gross profit over gross loss, with a
    positive gross loss. *)
Theorem profit_factor_infinite_iff_no_loss (ts : list Trade) (cap : Q) :
  ts <> [] ->
  exists m, calculate_metrics np ts cap = Some m
    /\ (m_profit_factor m = None
        <-> Forall (fun t => (0 <= r_multiple t)%Q) ts)
    /\ (forall pf, m_profit_factor m = Some pf ->
          (0 < gross_loss_of (map r_multiple ts))%Q
          /\ pf = (gross_profit_of (map r_multiple ts)
                   / gross_loss_of (map r_multiple ts))%Q).
Proof.
  intros Hne.
  destruct (calculate_metrics_more ts cap Hne)
    as (m & Hm & _ & _ & _ & _ & _ & Hpf & _).
  exists m. split; [exact Hm|]. rewrite Hpf.
  set (rs := map r_multiple ts).
  assert (Hall : Forall (fun r => (0 <= r)%Q) rs
                 <-> Forall (fun t => (0 <= r_multiple t)%Q) ts).
  { subst rs. rewrite Forall_forall, Forall_forall. split.
    - intros H t Ht. apply H. apply list_elem_of_In, in_map, list_elem_of_In, Ht.
    - intros H r Hr. apply list_elem_of_In, in_map_iff in Hr as (t & <- & Ht).
      apply H, list_elem_of_In, Ht. }
  destruct (Qltb 0 (gross_loss_of rs)) eqn:E.
  - apply Qltb_true in E. split.
    + split; [discriminate|]. intros H. exfalso. apply Hall, negatives_nil_iff in H.
      pose proof (gross_loss_is_minus_negatives rs) as Hgl.
      rewrite H in Hgl. change (Qsum []) with 0%Q in Hgl. lra.
    + intros pf [= <-]. split; [exact E|reflexivity].
  - apply Qltb_false in E. split; [|discriminate].
    split; [|reflexivity]. intros _. apply Hall, negatives_nil_iff.
    destruct (negatives rs) as [|x xs] eqn:En; [reflexivity|].
    exfalso.
    assert (Hne' : negatives rs <> []) by (rewrite En; discriminate).
    pose proof (negatives_sum_negative rs Hne') as Hneg.
    pose proof (gross_loss_is_minus_negatives rs) as Hgl. lra.
Qed.

(** X22: the maximum drawdown and its percentage are never negative, and
    the percentage is at most 100 when no trade leaves a negative
    equity. *)
Theorem max_drawdown_within_bounds (ts : list Trade) (cap : Q) :
  ts <> [] ->
  exists m, calculate_metrics np ts cap = Some m
    /\ (0 <= m_max_drawdown m)%Q
    /\ (0 <= m_max_drawdown_pct m)%Q
    /\ (Forall (fun t => (0 <= equity t)%Q) ts ->
        (m_max_drawdown_pct m <= 100)%Q).
Proof.
  intros Hne.
  destruct (calculate_metrics_more ts cap Hne)
    as (m & Hm & _ & _ & _ & _ & _ & _ & Hdd & Hpct & _).
  exists m. split; [exact Hm|]. rewrite Hdd, Hpct. unfold drawdown_scan.
  pose proof (drawdown_fold_bounds (map equity ts) cap 0 0) as H.
  destruct (fold_left drawdown_step (map equity ts) (cap, 0%Q, 0%Q))
    as [[pk dd] ddp].
  destruct H as (_ & H0 & H1 & _ & _ & Hone). cbn [fst snd].
  split; [exact H0|]. split; [lra|].
  intros Hall.
  assert (Hle : (ddp <= 1)%Q).
  { apply Hone; [|lra]. apply Forall_forall. intros e He.
    apply list_elem_of_In, in_map_iff in He as (t & <- & Ht).
    rewrite Forall_forall in Hall. apply Hall, list_elem_of_In, Ht. }
  lra.
Qed.

(** X23: the maximum drawdown covers every fall of the equity: from the
    initial capital to the equity after any trade, and from the equity
    after any trade to the equity after any later trade. *)
Theorem max_drawdown_covers_every_fall (ts : list Trade) (cap : Q) :
  ts <> [] ->
  exists m, calculate_metrics np ts cap = Some m
    /\ (forall t, t ∈ ts -> (cap - equity t <= m_max_drawdown m)%Q)
    /\ (forall (i j : nat) (ti tj : Trade), (i < j)%nat ->
          ts !! i = Some ti -> ts !! j = Some tj ->
          (equity ti - equity tj <= m_max_drawdown m)%Q).
Proof.
  intros Hne.
  destruct (calculate_metrics_more ts cap Hne)
    as (m & Hm & _ & _ & _ & _ & _ & _ & Hdd & _).
  exists m. split; [exact Hm|]. rewrite Hdd. unfold drawdown_scan.
  pose proof (drawdown_fold_bounds (map equity ts) cap 0 0) as H.
  destruct (fold_left drawdown_step (map equity ts) (cap, 0%Q, 0%Q))
    as [[pk dd] ddp].
  destruct H as (_ & _ & _ & Hfall & Hpair & _). cbn [fst snd].
  split.
  - intros t Ht. apply Hfall.
    apply list_elem_of_In, in_map, list_elem_of_In, Ht.
  - intros i j ti tj Hij Hi Hj. apply (Hpair i j); [exact Hij| |].
    + change (map equity ts) with (equity <$> ts). now rewrite list_lookup_fmap, Hi.
    + change (map equity ts) with (equity <$> ts). now rewrite list_lookup_fmap, Hj.
Qed.

End MetricsProperties.

Lemma non_declining_weaken (p p' : Q) (eqs : list Q) :
  (p' <= p)%Q -> non_declining p eqs -> non_declining p' eqs.
Proof.
  destruct eqs as [|e rest]; [trivial|]. cbn. intros Hp [He Hrest].
  split; [lra|exact Hrest].
Qed.

Lemma drawdown_fold_flat (eqs : list Q) :
  forall pk dd ddp : Q,
    non_declining pk eqs -> (dd <= 0)%Q -> (ddp <= 0)%Q ->
    match fold_left drawdown_step eqs (pk, dd, ddp) with
    | (_, dd', ddp') => (dd' <= 0)%Q /\ (ddp' <= 0)%Q
    end.
Proof.
  induction eqs as [|e rest IH]; intros pk dd ddp Hnd Hdd Hddp; cbn [fold_left].
  - split; assumption.
  - cbn in Hnd. destruct Hnd as [Hpe Hrest].
    unfold drawdown_step at 2.
    set (pk' := if Qltb pk e then e else pk).
    assert (Hpk : (pk' <= e)%Q).
    { subst pk'. destruct (Qltb pk e); lra. }
    apply IH.
    + apply (non_declining_weaken e pk' rest Hpk Hrest).
    + apply py_max_le; [exact Hdd|lra].
    + apply py_max_le; [exact Hddp|].
      destruct (Qltb 0 pk') eqn:E; [|lra].
      apply Qltb_true in E. apply Qle_shift_div_r; [exact E|lra].
Qed.

Section MetricsOfRuns.

Variable np : NumPy.

(** X24: when the equity never falls - the first trade's equity is at
    least the initial capital and each later one at least the one before -
    the maximum drawdown and its percentage are 0. *)
Theorem no_drawdown_without_a_fall (ts : list Trade) (cap : Q) :
  ts <> [] ->
  non_declining cap (map equity ts) ->
  exists m, calculate_metrics np ts cap = Some m
    /\ (m_max_drawdown m == 0)%Q
    /\ (m_max_drawdown_pct m == 0)%Q.
Proof.
  intros Hne Hnd.
  destruct (calculate_metrics_more np ts cap Hne)
    as (m & Hm & _ & _ & _ & _ & _ & _ & Hdd & Hpct & _).
  exists m. split; [exact Hm|]. rewrite Hdd, Hpct. unfold drawdown_scan.
  pose proof (drawdown_fold_bounds (map equity ts) cap 0 0) as Hlo.
  pose proof (drawdown_fold_flat (map equity ts) cap 0 0 Hnd
                ltac:(lra) ltac:(lra)) as Hhi.
  destruct (fold_left drawdown_step (map equity ts) (cap, 0%Q, 0%Q))
    as [[pk dd] ddp].
  destruct Hlo as (_ & H0 & H1 & _). destruct Hhi as [H2 H3]. cbn [fst snd].
  split; lra.
Qed.

(** X25: the metrics of a run: without trades the result is empty; with
    trades, [total_trades] is the run's [trades_executed], and
    [final_equity] is the last point of the run's equity curve. *)
Theorem metrics_of_a_run_close_the_books
    (self : BacktestEngine) (price_data : list PriceBar)
    (signals : list Signal) (context_data : gmap string ContextFrame) :
  match run_backtest self price_data signals context_data with
  | (ts, curve, fs) =>
      (ts = [] ->
         calculate_metrics np ts (initial_capital (config self)) = None)
      /\ (ts <> [] ->
          exists m,
            calculate_metrics np ts (initial_capital (config self)) = Some m
            /\ m_total_trades m = trades_executed fs
            /\ snd <$> last curve = Some (m_final_equity m))
  end.
Proof.
  unfold run_backtest, run_trace.
  pose proof (run_loop_ledger_ok self price_data context_data
                (in_date_range (config self) signals) (init_state (config self))
                (ledger_ok_init (config self))) as (Hts & _ & Hcurve).
  pose proof (run_loop_counts self price_data context_data
                (in_date_range (config self) signals)
                (init_state (config self))) as Hc.
  cbn zeta in Hc. destruct Hc as (_ & _ & _ & _ & _ & _ & _ & Hte & Hlen).
  set (st := snd (run_loop _ _ _ _ _)) in *.
  split; [intros ->; reflexivity|].
  intros Hne.
  destruct (calculate_metrics_more np (trades st)
              (initial_capital (config self)) Hne)
    as (m & Hm & Hn & _ & _ & _ & _ & _ & _ & _ & Hfin).
  exists m. split; [exact Hm|]. split.
  - rewrite Hn, Hlen, Hte. cbn. lia.
  - rewrite Hfin, Hcurve. unfold curve_of, last_equity.
    destruct (trades st) as [|t l] using rev_ind; [congruence|].
    rewrite map_app. cbn [map]. rewrite app_comm_cons, !last_snoc. reflexivity.
Qed.

End MetricsOfRuns.

(** ** Instances *)

Lemma win_rate_is_a_rate_witness :
  exists m, calculate_metrics rational_numpy ex_trades_in_order 100 = Some m
    /\ (0 <= m_win_rate m)%Q /\ (m_win_rate m <= 1)%Q.
Proof.
  apply (win_rate_is_a_rate rational_numpy ex_trades_in_order 100).
  discriminate.
Defined.

Lemma profit_factor_infinite_iff_no_loss_witness :
  exists m, calculate_metrics rational_numpy ex_trades_in_order 100 = Some m
    /\ (m_profit_factor m = None
        <-> Forall (fun t => (0 <= r_multiple t)%Q) ex_trades_in_order)
    /\ (forall pf, m_profit_factor m = Some pf ->
          (0 < gross_loss_of (map r_multiple ex_trades_in_order))%Q
          /\ pf = (gross_profit_of (map r_multiple ex_trades_in_order)
                   / gross_loss_of (map r_multiple ex_trades_in_order))%Q).
Proof.
  apply (profit_factor_infinite_iff_no_loss rational_numpy ex_trades_in_order 100).
  discriminate.
Defined.

Lemma max_drawdown_within_bounds_witness :
  exists m, calculate_metrics rational_numpy ex_trades_in_order 100 = Some m
    /\ (0 <= m_max_drawdown m)%Q
    /\ (0 <= m_max_drawdown_pct m)%Q
    /\ (Forall (fun t => (0 <= equity t)%Q) ex_trades_in_order ->
        (m_max_drawdown_pct m <= 100)%Q).
Proof.
  apply (max_drawdown_within_bounds rational_numpy ex_trades_in_order 100).
  discriminate.
Defined.

Lemma max_drawdown_covers_every_fall_witness :
  exists m, calculate_metrics rational_numpy ex_trades_in_order 100 = Some m
    /\ (forall t, t ∈ ex_trades_in_order -> (100 - equity t <= m_max_drawdown m)%Q)
    /\ (forall (i j : nat) (ti tj : Trade), (i < j)%nat ->
          ex_trades_in_order !! i = Some ti -> ex_trades_in_order !! j = Some tj ->
          (equity ti - equity tj <= m_max_drawdown m)%Q).
Proof.
  apply (max_drawdown_covers_every_fall rational_numpy ex_trades_in_order 100).
  discriminate.
Defined.

Lemma no_drawdown_without_a_fall_witness :
  exists m, calculate_metrics rational_numpy [mk_trade (hours 14) 2 110] 100 = Some m
    /\ (m_max_drawdown m == 0)%Q
    /\ (m_max_drawdown_pct m == 0)%Q.
Proof.
  apply (no_drawdown_without_a_fall rational_numpy [mk_trade (hours 14) 2 110] 100).
  - discriminate.
  - cbn. split; [discriminate|exact I].
Defined.

Lemma run_trades_in_signal_order_witness :
  trades_ascending (fst (fst (run_backtest ex_engine ex_prices ex_signals ex_context)))
  /\ chronological (fst (fst (run_backtest ex_engine ex_prices ex_signals ex_context))).
Proof.
  apply (run_trades_in_signal_order ex_engine ex_prices ex_signals ex_context).
  vm_compute. discriminate.
Defined.

(** ** DataLoader.load_signals before BacktestEngine.run_backtest *)

Lemma is_long_dir_standardized (d : string) :
  is_long_dir (standardize_direction d) = is_long_dir d.
Proof.
  unfold is_long_dir.
  destruct (standardize_direction_cases d) as [[E ->]|[[E ->]|(_ & _ & ->)]].
  - rewrite E. reflexivity.
  - rewrite E. reflexivity.
  - now rewrite upper_idemp.
Qed.

Lemma process_signal_standardized (self : BacktestEngine)
    (rc : GARCHRegimeRiskCalculator) (price_data : list PriceBar)
    (context_data : gmap string ContextFrame) (st : EngineState) (s : Signal) :
  confirmation self = None ->
  risk_calculator self = garch_risk_calculator rc ->
  process_signal self price_data context_data (standardize_state st)
    {| sig_timestamp := sig_timestamp s;
       sig_direction := standardize_direction (sig_direction s);
       sig_extra := sig_extra s |}
  = (fst (process_signal self price_data context_data st s),
     standardize_state (snd (process_signal self price_data context_data st s))).
Proof.
  intros Hconf Hrc. unfold process_signal. rewrite Hconf, Hrc.
  cbn [sig_timestamp sig_direction rejected_by garch_risk_calculator
       rc_calculate_stops].
  change (last_trade_time (count_signal (standardize_state st)))
    with (last_trade_time (count_signal st)).
  destruct (in_cooldown _ _ _); [reflexivity|].
  destruct (negb _); [reflexivity|].
  destruct (first_bar_after _ _) as [bar|]; [|reflexivity].
  destruct (load_context _ _ !! _) as [[g|]|]; [|reflexivity|reflexivity].
  assert (Hstops : forall e v,
            calculate_stops rc e (standardize_direction (sig_direction s)) v
            = calculate_stops rc e (sig_direction s) v).
  { intros e v. unfold calculate_stops. now rewrite is_long_dir_standardized. }
  rewrite Hstops.
  assert (Hsim : forall pd et e sl tp n,
            _simulate_trade pd et e (standardize_direction (sig_direction s)) sl tp n
            = _simulate_trade pd et e (sig_direction s) sl tp n).
  { intros. unfold _simulate_trade. now rewrite is_long_dir_standardized. }
  rewrite Hsim.
  destruct (_simulate_trade _ _ _ _ _ _ _) as [[[[k ts] px] r]|]; [|reflexivity].
  cbn [fst snd]. unfold standardize_state, record_trade.
  cbn [trades cur_equity last_trade_time equity_curve filter_stats count_signal
       with_stats make_trade signal_time equity].
  rewrite map_app. reflexivity.
Qed.

Lemma run_loop_standardized (self : BacktestEngine)
    (rc : GARCHRegimeRiskCalculator) (price_data : list PriceBar)
    (context_data : gmap string ContextFrame) (signals : list Signal) :
  confirmation self = None ->
  risk_calculator self = garch_risk_calculator rc ->
  forall st : EngineState,
    run_loop self price_data context_data (standardize_state st)
      (standardize_signals signals)
    = (fst (run_loop self price_data context_data st signals),
       standardize_state (snd (run_loop self price_data context_data st signals))).
Proof.
  intros Hconf Hrc. induction signals as [|s rest IH]; intros st; [reflexivity|].
  cbn [standardize_signals map run_loop].
  rewrite (process_signal_standardized self rc price_data context_data st s Hconf Hrc).
  destruct (process_signal self price_data context_data st s) as [o st1].
  cbn [fst snd]. fold (standardize_signals rest). rewrite (IH st1).
  destruct (run_loop self price_data context_data st1 rest) as [os st2].
  reflexivity.
Qed.

Lemma in_date_range_standardized (cfg : BacktestConfig) (signals : list Signal) :
  in_date_range cfg (standardize_signals signals)
  = standardize_signals (in_date_range cfg signals).
Proof.
  unfold in_date_range, standardize_signals.
  induction signals as [|s rest IH]; [reflexivity|].
  cbn [map List.filter sig_timestamp]. rewrite IH.
  destruct ((start_date cfg <=? sig_timestamp s)
            && (sig_timestamp s <=? end_date cfg))%bool; reflexivity.
Qed.

(** X26: cleaning the direction column as the loader does changes nothing
    in a run of the regime calculator without an oracle: the counters and
    the equity curve are the same, and the trades are the same trades with
    their direction cleaned. *)
Theorem run_backtest_reads_directions_like_the_loader
    (self : BacktestEngine) (rc : GARCHRegimeRiskCalculator)
    (price_data : list PriceBar) (signals : list Signal)
    (context_data : gmap string ContextFrame) :
  confirmation self = None ->
  risk_calculator self = garch_risk_calculator rc ->
  run_backtest self price_data (standardize_signals signals) context_data
  = match run_backtest self price_data signals context_data with
    | (ts, curve, fs) => (map standardize_trade ts, curve, fs)
    end.
Proof.
  intros Hconf Hrc. unfold run_backtest, run_trace.
  rewrite in_date_range_standardized.
  assert (H : run_loop self price_data context_data (init_state (config self))
                (standardize_signals (in_date_range (config self) signals))
              = (fst (run_loop self price_data context_data (init_state (config self))
                        (in_date_range (config self) signals)),
                 standardize_state
                   (snd (run_loop self price_data context_data
                           (init_state (config self))
                           (in_date_range (config self) signals))))).
  { exact (run_loop_standardized self rc price_data context_data
             (in_date_range (config self) signals) Hconf Hrc
             (init_state (config self))). }
  rewrite H. reflexivity.
Qed.

Lemma run_backtest_reads_directions_like_the_loader_witness :
  run_backtest ex_engine ex_prices (standardize_signals ex_signals) ex_context
  = match run_backtest ex_engine ex_prices ex_signals ex_context with
    | (ts, curve, fs) => (map standardize_trade ts, curve, fs)
    end.
Proof.
  apply (run_backtest_reads_directions_like_the_loader ex_engine ex_garch
           ex_prices ex_signals ex_context); reflexivity.
Defined.
